(** * DynamicClassifyObjects: binning of objects by a measurement

    A shallow embedding of [dynamicclassifyobjects.py] (the settings group
    closures [number_of_bins], [measurement_name], [bin_feature_names],
    [validate_group] and the method [run_single_measurement]) together with
    the Python and numpy primitives they call, and the properties of the
    binning engine proved or refuted on it.

    Python floats and numpy float64 values are Rocq's primitive binary64
    floats, so comparisons with NaN and infinities, and rounding, are the
    machine's. *)

From Stdlib Require Import ZArith List String Ascii Bool Lia Floats.
From Stdlib Require Import DecimalString DecimalPos DecimalZ.
Import ListNotations.

(* ================================================================= *)
(** ** Exceptions *)

(** The settings a [cps.ValidationError] can point at. *)
Inductive setting : Type :=
  | Bin_count            (* group.bin_count *)
  | Custom_thresholds    (* group.custom_thresholds *)
  | Bin_names.           (* group.bin_names *)

(** The messages of the validation errors, by the place that raises them. *)
Inductive message : Type :=
  | At_least_one_bin
      (* "You must have at least one bin in order to take measurements. ..." *)
  | Name_count_mismatch (bin_name_count bin_count : Z)
      (* "The number of bin names (%d) does not match thenumber of bins (%d)." *)
  | Not_alphanumeric
      (* raised by the host's validate_alphanumeric_text *)
  | Not_a_number_list.
      (* "Custom thresholds must be a comma-separated list of numbers ..." *)

(** The exceptions the modelled code can raise. *)
Inductive exn : Type :=
  | ValueError          (* float() on a malformed token; negative dimensions *)
  | IndexError          (* a column index past the last bin *)
  | ZeroDivisionError   (* Python float division by a zero int *)
  | ValidationError (m : message) (s : setting).

(** A computation that returns a value or raises. *)
Inductive res (A : Type) : Type :=
  | Ret (a : A)
  | Raise (e : exn).
Arguments Ret {A} a.
Arguments Raise {A} e.

Definition bind {A B : Type} (m : res A) (k : A -> res B) : res B :=
  match m with
  | Ret a => k a
  | Raise e => Raise e
  end.

Notation "x <- m ;; k" := (bind m (fun x => k))
  (at level 61, m at next level, right associativity).

(** [[f(x) for x in l]] where [f] may raise: the first failure aborts. *)
Fixpoint mapM {A B : Type} (f : A -> res B) (l : list A) : res (list B) :=
  match l with
  | [] => Ret []
  | x :: l' => y <- f x ;; ys <- mapM f l' ;; Ret (y :: ys)
  end.

(** A [for] loop whose turns may raise, as the rest of the program sees
    it: the results of the turns that were completed, which stay done, and
    the exception that ended the loop, if any. *)
Fixpoint for_each {A B : Type} (f : A -> res B) (l : list A)
  : list B * option exn :=
  match l with
  | [] => ([], None)
  | x :: l' =>
      match f x with
      | Ret y => let (ys, stopped) := for_each f l' in (y :: ys, stopped)
      | Raise e => ([], Some e)
      end
  end.

(* ================================================================= *)
(** ** Python built-ins on strings *)

Module Py.

Local Open Scope string_scope.

(** [c.isspace()] for a byte string in the C locale. *)
Definition isspace (c : ascii) : bool :=
  let n := nat_of_ascii c in
  (n =? 32)%nat || ((9 <=? n)%nat && (n <=? 13)%nat).

Fixpoint lstrip (s : string) : string :=
  match s with
  | String c s' => if isspace c then lstrip s' else s
  | EmptyString => s
  end.

Fixpoint rstrip (s : string) : string :=
  match s with
  | String c s' =>
      match rstrip s' with
      | EmptyString => if isspace c then EmptyString else String c EmptyString
      | r => String c r
      end
  | EmptyString => EmptyString
  end.

(** [s.strip()] *)
Definition strip (s : string) : string := rstrip (lstrip s).

(** [s.split(sep)] for a non-empty [sep]: the pieces between the leftmost
    non-overlapping occurrences of [sep].  [skip] counts the characters of
    an occurrence still to be passed over, [cur] is the piece being read. *)
Fixpoint split_from (sep : string) (skip : nat) (cur : string) (s : string)
  : list string :=
  match s with
  | EmptyString => [cur]
  | String c s' =>
      match skip with
      | S k => split_from sep k cur s'
      | O =>
          if prefix sep s
          then cur :: split_from sep (String.length sep - 1) EmptyString s'
          else split_from sep 0 (cur ++ String c EmptyString) s'
      end
  end.

Definition split (s sep : string) : list string :=
  split_from sep 0 EmptyString s.

(** ['_'.join((a, b))] and ['_'.join((a, b, c))] *)
Definition join2 (a b : string) : string := a ++ "_" ++ b.
Definition join3 (a b c : string) : string := a ++ "_" ++ b ++ "_" ++ c.

(** [str(n)] and ['%d' % n] for an integer. *)
Definition str (n : Z) : string := NilZero.string_of_int (Z.to_int n).

(** *** [float(s)]

    The grammar of Python 2's [float] on a byte string: surrounding white
    space, an optional sign, then either [inf], [infinity] or [nan] in any
    letter case, or decimal digits with an optional point and an optional
    exponent.  The value is the binary64 number nearest to the decimal
    (ties to even). *)

Definition isdigit (c : ascii) : bool :=
  let n := nat_of_ascii c in (48 <=? n)%nat && (n <=? 57)%nat.

Definition digit_value (c : ascii) : Z := Z.of_nat (nat_of_ascii c - 48).

Definition lower (c : ascii) : ascii :=
  let n := nat_of_ascii c in
  if (65 <=? n)%nat && (n <=? 90)%nat then ascii_of_nat (n + 32) else c.

Fixpoint lowercase (s : string) : string :=
  match s with
  | String c s' => String (lower c) (lowercase s')
  | EmptyString => EmptyString
  end.

(** Reads a run of digits: the number read so far, how many digits were
    read, and what follows them. *)
Fixpoint read_digits (acc : Z) (n : nat) (s : string) : Z * nat * string :=
  match s with
  | String c s' =>
      if isdigit c then read_digits (10 * acc + digit_value c) (S n) s'
      else (acc, n, s)
  | EmptyString => (acc, n, s)
  end.

Definition read_sign (s : string) : bool * string :=
  match s with
  | String c s' =>
      if Ascii.eqb c "-" then (true, s')
      else if Ascii.eqb c "+" then (false, s')
      else (false, s)
  | EmptyString => (false, s)
  end.

(** A decimal numeral as mantissa and power of ten: [m * 10^e]. *)
Definition read_decimal (s : string) : option (Z * Z) :=
  let '(ip, ni, r1) := read_digits 0 0 s in
  let '(m, nf, r2) :=
    match r1 with
    | String c r => if Ascii.eqb c "." then read_digits ip 0 r else (ip, O, r1)
    | EmptyString => (ip, O, r1)
    end in
  if (ni + nf =? 0)%nat then None
  else
    match r2 with
    | EmptyString => Some (m, - Z.of_nat nf)
    | String c r3 =>
        if Ascii.eqb (lower c) "e" then
          let '(neg, r4) := read_sign r3 in
          let '(e, ne, r5) := read_digits 0 0 r4 in
          match ne, r5 with
          | S _, EmptyString =>
              Some (m, (if neg then - e else e) - Z.of_nat nf)
          | _, _ => None
          end
        else None
    end%Z.

(** The binary64 value nearest to [m * 10^e] for [0 <= m].  A quotient is
    computed to more than 64 bits with a sticky last bit, so that the single
    rounding of [binary_normalize] is the correct one. *)
Definition round_decimal (m e : Z) : float :=
  if (m =? 0)%Z then 0%float
  else if (0 <=? e)%Z then
    SF2Prim (binary_normalize prec emax (m * 10 ^ e) 0 false)
  else
    let d := (10 ^ (- e))%Z in
    let k := Z.max 0 (Z.log2 d - Z.log2 m + 64) in
    let (q, r) := Z.div_eucl (Z.shiftl m k) d in
    let sticky := if (r =? 0)%Z then 0%Z else 1%Z in
    SF2Prim (binary_normalize prec emax (2 * q + sticky) (- k - 1) false).

(** [float(s)]: raises [ValueError] when [s] is not a float numeral. *)
Definition float (s : string) : res PrimFloat.float :=
  let '(neg, body) := read_sign (strip s) in
  let signed (x : PrimFloat.float) := if neg then (- x)%float else x in
  let word := lowercase body in
  if String.eqb word "inf" || String.eqb word "infinity"
  then Ret (signed infinity)
  else if String.eqb word "nan" then Ret nan
  else
    match read_decimal body with
    | Some (m, e) => Ret (signed (round_decimal m e))
    | None => Raise ValueError
    end.

End Py.

(* ================================================================= *)
(** ** numpy primitives *)

Module Np.

Local Open Scope float_scope.

(** [float(n)] of an integer, and the int64 to float64 conversion of an
    array: the nearest binary64 value. *)
Definition float_of_int (n : Z) : float :=
  SF2Prim (binary_normalize prec emax n 0 false).

(** [x > y]; IEEE's [>] is [<] with the operands exchanged. *)
Definition gt (x y : float) : bool := y <? x.

(** [x <= y] *)
Definition le (x y : float) : bool := x <=? y.

(** [np.arange(n)]: [0, 1, ..., n-1], empty when [n <= 0]. *)
Definition arange (n : Z) : list Z := map Z.of_nat (seq 0 (Z.to_nat n)).

(** [np.isnan(x)] *)
Definition isnan (x : float) : bool := is_nan x.

(** The number of [True] entries of a boolean vector: [v.sum()]. *)
Definition sum_bool (v : list bool) : Z :=
  fold_right (fun b acc => Z.b2z b + acc)%Z 0%Z v.

(** The sum of an integer vector. *)
Definition sum (v : list Z) : Z := fold_right Z.add 0%Z v.

(** [a[i]] for an integer [i]: a negative index counts from the end, and an
    index outside the array raises [IndexError]. *)
Definition item {A : Type} (a : list A) (i : Z) : res A :=
  let n := Z.of_nat (List.length a) in
  let k := if (i <? 0)%Z then (n + i)%Z else i in
  if (0 <=? k)%Z && (k <? n)%Z then
    match nth_error a (Z.to_nat k) with
    | Some x => Ret x
    | None => Raise IndexError
    end
  else Raise IndexError.

(** [a[indices]] for an array of integers. *)
Definition take {A : Type} (a : list A) (indices : list Z) : res (list A) :=
  mapM (item a) indices.

(** [a[mask]] for a boolean array of the length of [a]. *)
Definition compress {A : Type} (a : list A) (mask : list bool) : list A :=
  map fst (filter (fun am : A * bool => snd am) (combine a mask)).

End Np.

(* ================================================================= *)
(** ** The host's check of names *)

Module Cps.

Definition is_letter_or_underscore (c : ascii) : bool :=
  let n := nat_of_ascii c in
  ((65 <=? n)%nat && (n <=? 90)%nat) || ((97 <=? n)%nat && (n <=? 122)%nat)
  || (n =? 95)%nat.

Fixpoint all_alphanumeric (s : string) : bool :=
  match s with
  | String c s' =>
      (is_letter_or_underscore c || Py.isdigit c) && all_alphanumeric s'
  | EmptyString => true
  end.

(** Modelled from the spec: the host's
    [cps.AlphanumericText.validate_alphanumeric_text(text, setting, True)],
    which is not part of this module.  A name passes when it is made of
    letters, digits and underscores and starts with a letter or an
    underscore; otherwise the error points at [setting]. *)
Definition validate_alphanumeric_text (text : string) (s : setting)
  : res unit :=
  match text with
  | String c rest =>
      if is_letter_or_underscore c && all_alphanumeric rest
      then Ret tt
      else Raise (ValidationError Not_alphanumeric s)
  | EmptyString => Raise (ValidationError Not_alphanumeric s)
  end.

End Cps.

(* ================================================================= *)
(** ** The settings of one classification *)

(** [BC_EVEN] and [BC_CUSTOM], the two values of the [bin_choice] setting. *)
Inductive bin_choice_t : Type :=
  | BC_EVEN
  | BC_CUSTOM.

(** The values of the settings of one group of [add_single_measurement]. *)
Record group : Type := {
  object_name : string;
  measurement : string;
  bin_choice : bin_choice_t;
  bin_count : Z;
  wants_image_based_low_threshold : bool;
  low_threshold_measurement : string;
  low_threshold : float;
  wants_low_bin : bool;
  wants_image_based_high_threshold : bool;
  high_threshold_measurement : string;
  high_threshold : float;
  wants_high_bin : bool;
  custom_thresholds : string;
  wants_custom_names : bool;
  bin_names : string;
  wants_images : bool;
  image_name : string
}.

(** [[float(x.strip()) for x in text.split(sep)]], the comprehension of
    [validate_group] (with [sep] a comma) and of [run_single_measurement]
    (with [sep] a comma and a space). *)
Definition parse_thresholds (text sep : string) : res (list float) :=
  mapM (fun x => Py.float (Py.strip x)) (Py.split text sep).

(** *** The closures of a group

    [single_measurements] is [self.single_measurements], [me] the position
    in it of the group the closures belong to (the code finds it by
    [id(other) == id(group)]) and [g] that group. *)
Section Group.

Local Open Scope Z_scope.

Variable single_measurements : list group.
Variable me : nat.
Variable g : group.

Definition number_of_bins : Z :=
  let value :=
    match bin_choice g with
    | BC_EVEN => bin_count g
    | BC_CUSTOM => Z.of_nat (List.length (Py.split (custom_thresholds g) ",")) - 1
    end in
  let value := if wants_low_bin g then value + 1 else value in
  let value := if wants_high_bin g then value + 1 else value in
  value.

(** The loop of [measurement_name]: [pos] is the position of [other] in
    [self.single_measurements]; reaching the group itself breaks out. *)
Fixpoint count_other_same (measurement_name : string) (pos : nat)
    (others : list group) (other_same : Z) : Z :=
  match others with
  | [] => other_same
  | other :: rest =>
      if (pos =? me)%nat then other_same
      else
        count_other_same measurement_name (S pos) rest
          (if String.eqb (measurement other) measurement_name
           then other_same + 1 else other_same)
  end.

Definition measurement_name : string :=
  let measurement_name := measurement g in
  let other_same :=
    count_other_same measurement_name 0 single_measurements 0 in
  if (other_same >? 0)%Z
  then (measurement_name ++ Py.str other_same)%string
  else measurement_name.

Definition bin_feature_names : list string :=
  if wants_custom_names g
  then map Py.strip (Py.split (bin_names g) ",")
  else
    map (fun i => Py.join2 measurement_name ("Bin_" ++ Py.str (i + 1))%string)
        (Np.arange number_of_bins).

Definition validate_group : res unit :=
  let bin_name_count := Z.of_nat (List.length bin_feature_names) in
  let bin_count' := number_of_bins in
  if (bin_count' <? 1)%Z then
    let bad_setting :=
      match bin_choice g with
      | BC_EVEN => Bin_count
      | BC_CUSTOM => Custom_thresholds
      end in
    Raise (ValidationError At_least_one_bin bad_setting)
  else if negb (bin_name_count =? number_of_bins)%Z then
    Raise (ValidationError (Name_count_mismatch bin_name_count bin_count')
                           Bin_names)
  else
    _ <- mapM (fun bin_feature_name =>
                 Cps.validate_alphanumeric_text bin_feature_name Bin_names)
              bin_feature_names ;;
    match bin_choice g with
    | BC_CUSTOM =>
        match parse_thresholds (custom_thresholds g) "," with
        | Ret _ => Ret tt
        | Raise ValueError =>
            Raise (ValidationError Not_a_number_list Custom_thresholds)
        | Raise e => Raise e
        end
    | BC_EVEN => Ret tt
    end.

End Group.

(* ================================================================= *)
(** ** Classification of the objects of one image cycle *)

Definition M_CATEGORY : string := "Classify".
Definition F_PCT_PER_BIN : string := "PctObjectsPerBin".
Definition F_NUM_PER_BIN : string := "NumObjectsPerBin".

(** A colour with and without its opacity. *)
Definition rgba : Type := float * float * float * float.
Definition rgb : Type := float * float * float.

(** What [run_single_measurement] reads from the host: the per-object
    values and the per-image value of a measurement, the labels of the
    pixels of an object set ([get_objects(name).segmented], row after row;
    0 is the background and [n] the [n]-th object) and, through
    [get_colors], the default colour map: [to_rgba count i] is row [i] of
    [sm.to_rgba(np.arange(count)+1)]. *)
Record workspace : Type := {
  get_current_measurement : string -> string -> list float;
  get_current_image_measurement : string -> float;
  segmented : string -> list Z;
  to_rgba : nat -> nat -> rgba
}.

(** The three [add_measurement] calls of one turn of the loop over the
    bins: the per-object column, the count and the percentage. *)
Record bin_measurements : Type := {
  object_feature : string;
  object_classification : list Z;
  num_feature : string;
  num_hits : Z;
  pct_feature : string;
  pct : float
}.

(** What is computed for the image and the display window: the index of
    every object, the index of every pixel ([labels]), the image that is
    added to the image set when an image is wanted, and the bins, labels
    and values appended to [display_data] when the window is shown. *)
Record display : Type := {
  object_bins : list Z;
  object_color : list Z;
  labels : list Z;
  image : option (list rgb);
  display_data : option (list Z * list Z * list float)
}.

Record run_output : Type := {
  recorded : list bin_measurements;
  shown : option display
}.

Section Run.

Local Open Scope float_scope.

(** [self.single_measurements] and [self.show_window]. *)
Variable single_measurements : list group.
Variable show_window : bool.

(** The edges of the bins: the [thresholds] array after the [np.hstack]. *)
Definition thresholds (g : group) (w : workspace) : res (list float) :=
  thresholds <-
    match bin_choice g with
    | BC_EVEN =>
        let low_threshold :=
          if wants_image_based_low_threshold g
          then get_current_image_measurement w (low_threshold_measurement g)
          else low_threshold g in
        let high_threshold :=
          if wants_image_based_high_threshold g
          then get_current_image_measurement w (high_threshold_measurement g)
          else high_threshold g in
        let bin_count := bin_count g in
        Ret (map (fun i => Np.float_of_int i * (high_threshold - low_threshold)
                           / Np.float_of_int bin_count + low_threshold)
                 (Np.arange (bin_count + 1)))
    | BC_CUSTOM => parse_thresholds (custom_thresholds g) ", "
    end ;;
  Ret ((if wants_low_bin g then [neg_infinity] else [])
       ++ thresholds
       ++ (if wants_high_bin g then [infinity] else [])).

(** The column indices [th_idx] of [np.mgrid[0:len(values),
    0:len(thresholds)-1]]; an empty [thresholds] asks for a negative
    dimension. *)
Definition mgrid_columns (thresholds : list float) : res (list nat) :=
  match thresholds with
  | [] => Raise ValueError
  | _ :: rest => Ret (seq 0 (List.length rest))
  end.

(** One entry of [bin_hits]. *)
Definition bin_hit (thresholds : list float) (value : float) (th_idx : nat)
  : bool :=
  Np.gt value (nth th_idx thresholds nan)
  && Np.le value (nth (th_idx + 1) thresholds nan).

(** [bin_hits], one row per object and one column per bin. *)
Definition bin_hits (values thresholds : list float) (th_idx : list nat)
  : list (list bool) :=
  map (fun value => map (bin_hit thresholds value) th_idx) values.

(** [bin_hits[:, bin_idx]] for a matrix with [columns] columns. *)
Definition column (columns : nat) (hits : list (list bool)) (bin_idx : nat)
  : res (list bool) :=
  if (bin_idx <? columns)%nat
  then Ret (map (fun row => nth bin_idx row false) hits)
  else Raise IndexError.

(** Python's [x / n] for a float and an int. *)
Definition truediv (x : float) (n : Z) : res float :=
  if (n =? 0)%Z then Raise ZeroDivisionError
  else Ret (x / Np.float_of_int n).

(** [100.0*float(num_hits)/num_values if num_values > 0 else 0]; the
    integer 0 of the [else] branch is stored as the float 0. *)
Definition percentage (num_hits num_values : Z) : res float :=
  if (num_values >? 0)%Z
  then truediv (100 * Np.float_of_int num_hits) num_values
  else Ret 0.

(** [np.sum(bin_hits * th_idx, 1) + 1] *)
Definition object_bins_of (hits : list (list bool)) (th_idx : list nat)
  : list Z :=
  map (fun row =>
         (Np.sum (map (fun hi : bool * nat =>
                         Z.b2z (fst hi) * Z.of_nat (snd hi))%Z
                      (combine row th_idx)) + 1)%Z)
      hits.

(** [object_color = np.hstack(([0], object_bins))] and then
    [object_color[np.hstack((False, np.isnan(values)))] = 0]. *)
Definition object_color_of (object_bins : list Z) (values : list float)
  : list Z :=
  map (fun cm : Z * bool => if snd cm then 0%Z else fst cm)
      (combine (0%Z :: object_bins) (false :: map Np.isnan values)).

(** The [num_hits] of the loop of [run_single_measurement], for every
    column of [bin_hits]. *)
Definition counts_per_bin (values thresholds : list float) : res (list Z) :=
  th_idx <- mgrid_columns thresholds ;;
  mapM (fun bin_idx =>
          hits <- column (List.length th_idx)
                         (bin_hits values thresholds th_idx) bin_idx ;;
          Ret (Np.sum_bool hits))
       th_idx.

(** [get_colors(count)]: a row of zeros and the [count] colours of the
    colour map. *)
Definition get_colors (w : workspace) (count : nat) : list rgba :=
  (0, 0, 0, 0) :: map (to_rgba w count) (seq 0 count).

(** [colors[labels, :3]] *)
Definition colors_of (colors : list rgba) (labels : list Z)
  : res (list rgb) :=
  rows <- Np.take colors labels ;;
  Ret (map (fun c : rgba => let '(r, g', b, _) := c in (r, g', b)) rows).

(** One turn of the loop over the bins: the column of the bin, its count
    and its percentage, as handed to [add_measurement].  The turn can raise
    at [bin_hits[:, bin_idx]] only, before its first [add_measurement]. *)
Definition record_bin (values : list float) (bin_hits : list (list bool))
    (columns : nat) (turn : nat * string) : res bin_measurements :=
  let '(bin_idx, feature_name) := turn in
  hits <- column columns bin_hits bin_idx ;;
  let num_hits := Np.sum_bool hits in
  pct <- percentage num_hits (Z.of_nat (List.length values)) ;;
  Ret {| object_feature := Py.join2 M_CATEGORY feature_name;
         object_classification := map Z.b2z hits;
         num_feature := Py.join3 M_CATEGORY feature_name F_NUM_PER_BIN;
         num_hits := num_hits;
         pct_feature := Py.join3 M_CATEGORY feature_name F_PCT_PER_BIN;
         pct := pct |}.

(** The part of [run_single_measurement] for the image and the window
    (from [if group.wants_images or self.show_window] on). *)
Definition show (g : group) (w : workspace) (values : list float)
    (bin_hits : list (list bool)) (th_idx : list nat)
  : res (option display) :=
  if wants_images g || show_window then
    let colors := get_colors w (List.length th_idx) in
    let object_bins := object_bins_of bin_hits th_idx in
    let object_color := object_color_of object_bins values in
    labels <- Np.take object_color (segmented w (object_name g)) ;;
    image <-
      (if wants_images g
       then image <- colors_of colors labels ;; Ret (Some image)
       else Ret None) ;;
    let not_nan := map (fun value => negb (Np.isnan value)) values in
    Ret (Some {| object_bins := object_bins;
                 object_color := object_color;
                 labels := labels;
                 image := image;
                 display_data :=
                   if show_window
                   then Some (Np.compress object_bins not_nan, labels,
                              Np.compress values not_nan)
                   else None |})
  else Ret None.

(** [run_single_measurement(group, workspace)] for the group [g] at position
    [me], with the measurements that it has handed to [add_measurement]
    when it ends: those stay in the workspace also when the run raises. *)
Definition run_single_measurement_recording (me : nat) (g : group)
    (w : workspace) : list bin_measurements * res run_output :=
  let object_name := object_name g in
  let feature := measurement g in
  let values := get_current_measurement w object_name feature in
  match thresholds g w with
  | Raise e => ([], Raise e)
  | Ret thresholds =>
      match mgrid_columns thresholds with
      | Raise e => ([], Raise e)
      | Ret th_idx =>
          let bin_hits := bin_hits values thresholds th_idx in
          let names := bin_feature_names single_measurements me g in
          let (recorded, stopped) :=
            for_each (record_bin values bin_hits (List.length th_idx))
                     (combine (seq 0 (List.length names)) names) in
          (recorded,
           match stopped with
           | Some e => Raise e
           | None =>
               shown <- show g w values bin_hits th_idx ;;
               Ret {| recorded := recorded; shown := shown |}
           end)
      end
  end.

(** The outcome of [run_single_measurement(group, workspace)]. *)
Definition run_single_measurement (me : nat) (g : group) (w : workspace)
  : res run_output :=
  snd (run_single_measurement_recording me g w).

End Run.

(* ================================================================= *)
(** ** Vocabulary of the properties *)

(** Each edge is at most the next one (so no edge is NaN when there are
    two or more). *)
Fixpoint nondecreasing (thresholds : list float) : bool :=
  match thresholds with
  | a :: (b :: _) as rest => Np.le a b && nondecreasing rest
  | _ => true
  end.

(** The string has a comma in it. *)
Fixpoint has_comma (s : string) : bool :=
  match s with
  | String c s' => Ascii.eqb c "," || has_comma s'
  | EmptyString => false
  end.

(** The string has the character [c] in it. *)
Fixpoint has_char (c : ascii) (s : string) : bool :=
  match s with
  | String c' s' => Ascii.eqb c' c || has_char c s'
  | EmptyString => false
  end.

(** While a text is split at [","] and at [", "], the piece read so far at
    [","], [cur'], is the one read at [", "], [cur], possibly after the
    space that ended the last separator. *)
Definition same_piece (cur cur' : string) : Prop :=
  cur' = cur \/ cur' = String " "%char cur.

(** The earlier siblings of the group at position [me] that classify the
    measurement [name]. *)
Definition earlier_same (single_measurements : list group) (me : nat)
    (name : string) : list group :=
  filter (fun other => String.eqb (measurement other) name)
         (firstn me single_measurements).

(** Sample settings: groups that classify the nuclei by their area, with
    thresholds given in the settings and an output image. *)
Module Sample.

Local Open Scope string_scope.

Definition even (low high : float) (count : Z) (low_bin high_bin : bool)
  : group := {|
  object_name := "Nuclei";
  measurement := "AreaShape_Area";
  bin_choice := BC_EVEN;
  bin_count := count;
  wants_image_based_low_threshold := false;
  low_threshold_measurement := "None";
  low_threshold := low;
  wants_low_bin := low_bin;
  wants_image_based_high_threshold := false;
  high_threshold_measurement := "None";
  high_threshold := high;
  wants_high_bin := high_bin;
  custom_thresholds := "0,1";
  wants_custom_names := false;
  bin_names := "None";
  wants_images := true;
  image_name := "ClassifiedNuclei"
|}.

Definition custom (text : string) (low_bin high_bin : bool) : group := {|
  object_name := "Nuclei";
  measurement := "AreaShape_Area";
  bin_choice := BC_CUSTOM;
  bin_count := 3;
  wants_image_based_low_threshold := false;
  low_threshold_measurement := "None";
  low_threshold := 0;
  wants_low_bin := low_bin;
  wants_image_based_high_threshold := false;
  high_threshold_measurement := "None";
  high_threshold := 1;
  wants_high_bin := high_bin;
  custom_thresholds := text;
  wants_custom_names := false;
  bin_names := "None";
  wants_images := true;
  image_name := "ClassifiedNuclei"
|}.

(** The same classification with the bins named by the user. *)
Definition named (names : string) (g : group) : group := {|
  object_name := object_name g;
  measurement := measurement g;
  bin_choice := bin_choice g;
  bin_count := bin_count g;
  wants_image_based_low_threshold := wants_image_based_low_threshold g;
  low_threshold_measurement := low_threshold_measurement g;
  low_threshold := low_threshold g;
  wants_low_bin := wants_low_bin g;
  wants_image_based_high_threshold := wants_image_based_high_threshold g;
  high_threshold_measurement := high_threshold_measurement g;
  high_threshold := high_threshold g;
  wants_high_bin := wants_high_bin g;
  custom_thresholds := custom_thresholds g;
  wants_custom_names := true;
  bin_names := names;
  wants_images := wants_images g;
  image_name := image_name g
|}.

(** The group [g] without its output image. *)
Definition without_image (g : group) : group := {|
  object_name := object_name g;
  measurement := measurement g;
  bin_choice := bin_choice g;
  bin_count := bin_count g;
  wants_image_based_low_threshold := wants_image_based_low_threshold g;
  low_threshold_measurement := low_threshold_measurement g;
  low_threshold := low_threshold g;
  wants_low_bin := wants_low_bin g;
  wants_image_based_high_threshold := wants_image_based_high_threshold g;
  high_threshold_measurement := high_threshold_measurement g;
  high_threshold := high_threshold g;
  wants_high_bin := wants_high_bin g;
  custom_thresholds := custom_thresholds g;
  wants_custom_names := wants_custom_names g;
  bin_names := bin_names g;
  wants_images := false;
  image_name := image_name g
|}.

(** A workspace whose objects have the measurement values [values]: the
    image is one row with a background pixel and a pixel for each object,
    and the colour map is a ramp of greys. *)
Definition objects (values : list float) : workspace := {|
  get_current_measurement := fun _ _ => values;
  get_current_image_measurement := fun _ => nan;
  segmented := fun _ => map Z.of_nat (seq 0 (S (List.length values)));
  to_rgba := fun count i =>
    let grey := (Np.float_of_int (Z.of_nat (S i))
                 / Np.float_of_int (Z.of_nat count))%float in
    (grey, grey, grey, 1%float)
|}.

End Sample.

(* ================================================================= *)
(** ** What the module tells the host about its measurements *)

(** [cpmeas.COLTYPE_INTEGER] and [cpmeas.COLTYPE_FLOAT]. *)
Inductive coltype : Type :=
  | COLTYPE_INTEGER
  | COLTYPE_FLOAT.

(** [enumerate(l)] *)
Definition enumerate {A : Type} (l : list A) : list (nat * A) :=
  combine (seq 0 (List.length l)) l.

Section Module_.

(** [cpmeas.IMAGE], the host's name for the measurements of the image, and
    [self.single_measurements]. *)
Variable IMAGE : string.
Variable single_measurements : list group.

Definition get_measurement_columns : list (string * string * coltype) :=
  flat_map
    (fun '(me, g) =>
       let names := bin_feature_names single_measurements me g in
       map (fun feature_name =>
              (IMAGE, Py.join3 M_CATEGORY feature_name F_NUM_PER_BIN,
               COLTYPE_INTEGER)) names
       ++ map (fun feature_name =>
                 (IMAGE, Py.join3 M_CATEGORY feature_name F_PCT_PER_BIN,
                  COLTYPE_FLOAT)) names
       ++ map (fun feature_name =>
                 (object_name g, Py.join2 M_CATEGORY feature_name,
                  COLTYPE_INTEGER)) names)
    (enumerate single_measurements).

Definition get_categories (object_name' : string) : list string :=
  if String.eqb object_name' IMAGE
     || existsb (String.eqb object_name') (map object_name single_measurements)
  then [M_CATEGORY]
  else [].

(** The loop of [get_measurements]; [pos] is the position of the group at
    the head of [others].  Both branches return from inside the loop. *)
Fixpoint get_measurements_from (object_name' : string) (pos : nat)
    (others : list group) : list string :=
  match others with
  | [] => []
  | g :: rest =>
      if String.eqb (object_name g) object_name'
      then bin_feature_names single_measurements pos g
      else if String.eqb object_name' IMAGE
      then
        flat_map
          (fun image_features =>
             map (fun bin_feature_names' =>
                    Py.join2 bin_feature_names' image_features)
                 (bin_feature_names single_measurements pos g))
          [F_NUM_PER_BIN; F_PCT_PER_BIN]
      else get_measurements_from object_name' (S pos) rest
  end.

Definition get_measurements (object_name' category : string)
  : list string :=
  if negb (String.eqb category M_CATEGORY) then []
  else get_measurements_from object_name' 0 single_measurements.

(** [validate_module]: the groups are validated in order. *)
Definition validate_module : res unit :=
  _ <- mapM (fun '(me, g) => validate_group single_measurements me g)
            (enumerate single_measurements) ;;
  Ret tt.

End Module_.

(* ================================================================= *)
(** ** Adjusting the number of groups to the saved settings *)

Section Prepare.

(** The group that [add_single_measurement(True)] appends (its [can_delete]
    flag, which only the layout of the settings reads, is not a field of
    [group]). *)
Variable new_group : group.

(** [del l[count:]]; a negative [count] counts from the end. *)
Definition del_from (count : Z) (l : list group) : list group :=
  let len := Z.of_nat (List.length l) in
  firstn (Z.to_nat (if (count <? 0)%Z then Z.max 0 (len + count) else count))
         l.

(** [n] turns of [self.add_single_measurement(True)]. *)
Fixpoint add_single_measurements (n : nat) (single_measurements : list group)
  : list group :=
  match n with
  | O => single_measurements
  | S n' => add_single_measurements n' (single_measurements ++ [new_group])
  end.

(** [prepare_settings], with [single_measurement_count] the number read
    from [setting_values[0]]; the [while] loop runs once for each group that
    is missing. *)
Definition prepare_settings (single_measurement_count : Z)
    (single_measurements : list group) : list group :=
  let single_measurements :=
    if (single_measurement_count
        <? Z.of_nat (List.length single_measurements))%Z
    then del_from single_measurement_count single_measurements
    else single_measurements in
  add_single_measurements
    (Z.to_nat (single_measurement_count
               - Z.of_nat (List.length single_measurements)))
    single_measurements.

End Prepare.

(* ================================================================= *)
(** ** The order of binary64 values *)

Module FloatOrder.

Local Open Scope float_scope.

Ltac cases_compare :=
  repeat match goal with
  | |- context [Z.compare ?a ?b] => destruct (Z.compare_spec a b)
  | H : context [Z.compare ?a ?b] |- _ => destruct (Z.compare_spec a b)
  | |- context [Pos.compare_cont Eq ?a ?b] =>
      change (Pos.compare_cont Eq a b) with (Pos.compare a b);
      destruct (Pos.compare_spec a b)
  | H : context [Pos.compare_cont Eq ?a ?b] |- _ =>
      change (Pos.compare_cont Eq a b) with (Pos.compare a b) in H;
      destruct (Pos.compare_spec a b)
  end.

Ltac by_cases :=
  cbn in *; cases_compare; cbn in *; subst;
  try reflexivity; try discriminate; try lia.

Ltac spec_cases x := destruct x as [[|]|[|]| |[|] ? ?].

Lemma SFleb_trans a b c :
  SFleb a b = true -> SFleb b c = true -> SFleb a c = true.
Proof.
  unfold SFleb. spec_cases a; spec_cases b; spec_cases c; by_cases.
Qed.

Lemma SFleb_not_ltb a b : SFleb a b = true -> SFltb b a = false.
Proof. unfold SFleb, SFltb. spec_cases a; spec_cases b; by_cases. Qed.

Lemma SFltb_false_leb a b :
  a <> S754_nan -> b <> S754_nan -> SFltb b a = false -> SFleb a b = true.
Proof.
  unfold SFleb, SFltb. spec_cases a; spec_cases b; try congruence; by_cases.
Qed.

Lemma SFleb_not_nan a b :
  SFleb a b = true -> a <> S754_nan /\ b <> S754_nan.
Proof.
  unfold SFleb. spec_cases a; spec_cases b; cbn; intros H;
    try discriminate; split; discriminate.
Qed.

Lemma SFltb_not_nan a b :
  SFltb a b = true -> a <> S754_nan /\ b <> S754_nan.
Proof.
  unfold SFltb. spec_cases a; spec_cases b; cbn; intros H;
    try discriminate; split; discriminate.
Qed.

Lemma SFeqb_refl a : a <> S754_nan -> SFeqb a a = true.
Proof.
  unfold SFeqb. spec_cases a; try congruence; intros _; cbn;
    try reflexivity; rewrite Z.compare_refl;
    change (Pos.compare_cont Eq ?m ?m) with (Pos.compare m m);
    rewrite Pos.compare_refl; reflexivity.
Qed.

Lemma SFeqb_leb_not_ltb a b c :
  SFeqb a b = true -> SFleb b c = true -> SFltb c a = false.
Proof.
  unfold SFeqb, SFleb, SFltb.
  spec_cases a; spec_cases b; spec_cases c; by_cases.
Qed.

Lemma SFadd_comm a b : SF64add a b = SF64add b a.
Proof.
  unfold SF64add, SFadd.
  destruct a as [[|]|[|]| |sa ma ea], b as [[|]|[|]| |sb mb eb];
    try reflexivity.
  rewrite (Z.min_comm eb ea). f_equal. apply Z.add_comm.
Qed.

(** *** The same facts on the primitive values *)

Lemma isnan_spec x : Np.isnan x = true <-> Prim2SF x = S754_nan.
Proof.
  unfold Np.isnan, is_nan. rewrite eqb_spec. split.
  - intros H. destruct (Prim2SF x) eqn:E; try reflexivity;
      rewrite SFeqb_refl in H; discriminate.
  - intros ->. reflexivity.
Qed.

Lemma isnan_false x : Np.isnan x = false <-> Prim2SF x <> S754_nan.
Proof.
  rewrite <- isnan_spec. destruct (Np.isnan x); split; congruence.
Qed.

Lemma gt_nan_value v e : Np.isnan v = true -> Np.gt v e = false.
Proof.
  intros H%isnan_spec. unfold Np.gt. rewrite ltb_spec, H.
  unfold SFltb. destruct (Prim2SF e); reflexivity.
Qed.

Lemma le_nan_value v e : Np.isnan v = true -> Np.le v e = false.
Proof.
  intros H%isnan_spec. unfold Np.le. rewrite leb_spec, H. reflexivity.
Qed.

Lemma le_trans x y z :
  Np.le x y = true -> Np.le y z = true -> Np.le x z = true.
Proof. unfold Np.le. rewrite !leb_spec. apply SFleb_trans. Qed.

Lemma le_not_gt v e : Np.le v e = true -> Np.gt v e = false.
Proof.
  unfold Np.le, Np.gt. rewrite leb_spec, ltb_spec. apply SFleb_not_ltb.
Qed.

Lemma not_gt_le v e :
  Np.isnan v = false -> Np.isnan e = false ->
  Np.gt v e = false -> Np.le v e = true.
Proof.
  intros Hv%isnan_false He%isnan_false. unfold Np.le, Np.gt.
  rewrite leb_spec, ltb_spec. now apply SFltb_false_leb.
Qed.

Lemma le_not_nan x y :
  Np.le x y = true -> Np.isnan x = false /\ Np.isnan y = false.
Proof.
  unfold Np.le. rewrite leb_spec, !isnan_false. apply SFleb_not_nan.
Qed.

Lemma gt_not_nan x y :
  Np.gt x y = true -> Np.isnan x = false /\ Np.isnan y = false.
Proof.
  unfold Np.gt. rewrite ltb_spec, !isnan_false.
  intros H%SFltb_not_nan. tauto.
Qed.

Lemma le_refl x : Np.isnan x = false -> Np.le x x = true.
Proof.
  intros H. apply not_gt_le; trivial.
  destruct (Np.gt x x) eqn:E; trivial.
  unfold Np.gt in E. rewrite ltb_spec in E.
  assert (L : SFleb (Prim2SF x) (Prim2SF x) = true).
  { unfold SFltb in E. unfold SFleb.
    destruct (SFcompare (Prim2SF x) (Prim2SF x)) as [[| |]|];
      try discriminate; reflexivity. }
  apply SFleb_not_ltb in L. congruence.
Qed.

Lemma eq_le_not_gt v lowest e :
  (v =? lowest) = true -> Np.le lowest e = true -> Np.gt v e = false.
Proof.
  unfold Np.le, Np.gt. rewrite eqb_spec, leb_spec, ltb_spec.
  apply SFeqb_leb_not_ltb.
Qed.

Lemma add_comm x y : x + y = y + x.
Proof.
  apply Prim2SF_inj. rewrite !add_spec. apply SFadd_comm.
Qed.

End FloatOrder.

(* ================================================================= *)
(** ** Comprehensions that may raise *)

Lemma mapM_ret {A B : Type} (f : A -> res B) (h : A -> B) (l : list A) :
  (forall x, In x l -> f x = Ret (h x)) -> mapM f l = Ret (map h l).
Proof.
  induction l as [|x l IH]; intros H; cbn; [reflexivity|].
  rewrite (H x (or_introl eq_refl)). cbn.
  rewrite IH by (intros y Hy; apply H; now right). reflexivity.
Qed.

Lemma mapM_map {A B C : Type} (f : B -> res C) (h : A -> B) (l : list A) :
  mapM (fun x => f (h x)) l = mapM f (map h l).
Proof.
  induction l as [|x l IH]; [reflexivity|]. cbn [mapM map]. now rewrite IH.
Qed.

Lemma mapM_length {A B : Type} (f : A -> res B) (l : list A) (r : list B) :
  mapM f l = Ret r -> List.length r = List.length l.
Proof.
  revert r. induction l as [|x l IH]; cbn; intros r H.
  - now inversion H.
  - destruct (f x); [|discriminate]. cbn in H.
    destruct (mapM f l) as [ys|]; [|discriminate]. cbn in H.
    inversion H; subst. cbn. now rewrite (IH ys eq_refl).
Qed.

Lemma mapM_raise {A B : Type} (f : A -> res B) (l : list A) (e : exn) :
  mapM f l = Raise e -> exists x, In x l /\ f x = Raise e.
Proof.
  induction l as [|x l IH]; cbn; intros H; [discriminate|].
  destruct (f x) as [y|e'] eqn:E; cbn in H.
  - destruct (mapM f l) as [ys|e'']; cbn in H; [discriminate|].
    destruct (IH H) as (z & Hz & Ez). exists z. split; [now right|exact Ez].
  - exists x. split; [now left|congruence].
Qed.

Lemma mapM_each {A B : Type} (f : A -> res B) (l : list A) (r : list B) :
  mapM f l = Ret r -> forall x, In x l -> exists y, f x = Ret y.
Proof.
  revert r. induction l as [|a l IH]; cbn [mapM]; intros r H x Hx;
    [destruct Hx|].
  destruct (f a) as [b|] eqn:E; [|discriminate]. cbn [bind] in H.
  destruct (mapM f l) as [ys|] eqn:EM; [|discriminate].
  destruct Hx as [<-|Hx]; [now exists b|]. now apply (IH ys).
Qed.



(* ================================================================= *)
(** ** Sums and positions in lists *)

Lemma sum_bool_map (v : list bool) : Np.sum_bool v = Np.sum (map Z.b2z v).
Proof.
  induction v as [|b v IH]; [reflexivity|].
  change (Z.b2z b + Np.sum_bool v = Z.b2z b + Np.sum (map Z.b2z v))%Z.
  now rewrite IH.
Qed.

Lemma sum_cons (x : Z) (v : list Z) : Np.sum (x :: v) = (x + Np.sum v)%Z.
Proof. reflexivity. Qed.

Lemma sum_map_zero {A : Type} (l : list A) :
  Np.sum (map (fun _ => 0%Z) l) = 0%Z.
Proof.
  induction l as [|x l IH]; [reflexivity|].
  cbn [map]. rewrite sum_cons. lia.
Qed.

Lemma sum_map_add {A : Type} (f h : A -> Z) (l : list A) :
  Np.sum (map (fun x => f x + h x)%Z l)
  = (Np.sum (map f l) + Np.sum (map h l))%Z.
Proof.
  induction l as [|x l IH]; [reflexivity|].
  cbn [map]. rewrite !sum_cons. lia.
Qed.

(** Summing a table by rows or by columns gives the same total. *)
Lemma sum_swap {A B : Type} (f : A -> B -> Z) (la : list A) (lb : list B) :
  Np.sum (map (fun a => Np.sum (map (f a) lb)) la)
  = Np.sum (map (fun b => Np.sum (map (fun a => f a b) la)) lb).
Proof.
  induction la as [|a la IH]; cbn [map].
  - now rewrite sum_map_zero.
  - transitivity
      (Np.sum (map (fun b => f a b + Np.sum (map (fun a => f a b) la))%Z lb)).
    + rewrite sum_cons, sum_map_add, IH. reflexivity.
    + reflexivity.
Qed.

Lemma sum_bool_cons (b : bool) (v : list bool) :
  Np.sum_bool (b :: v) = (Z.b2z b + Np.sum_bool v)%Z.
Proof. reflexivity. Qed.

Lemma sum_bool_bounds (v : list bool) :
  (0 <= Np.sum_bool v <= Z.of_nat (List.length v))%Z.
Proof.
  induction v as [|[|] v IH]; rewrite ?sum_bool_cons;
    cbn [List.length Z.b2z]; [cbn| |]; lia.
Qed.

Lemma sum_bool_zero (v : list bool) :
  Np.sum_bool v = 0%Z <-> Forall (eq false) v.
Proof.
  induction v as [|b v IH].
  - split; [constructor|reflexivity].
  - pose proof (sum_bool_bounds v) as Hb. rewrite sum_bool_cons.
    destruct b; cbn [Z.b2z]; split; intros H.
    + lia.
    + inversion H; discriminate.
    + constructor; [reflexivity|apply IH; lia].
    + inversion H; subst. assert (E := proj2 IH H3). lia.
Qed.

(** A boolean row whose sum is at most one has at most one [true]. *)
Lemma sum_bool_le_1_unique (v : list bool) (i j : nat) :
  (Np.sum_bool v <= 1)%Z ->
  nth i v false = true -> nth j v false = true -> i = j.
Proof.
  revert i j. induction v as [|b v IH]; intros i j Hs Hi Hj.
  - destruct i; discriminate.
  - pose proof (sum_bool_bounds v) as Hb. rewrite sum_bool_cons in Hs.
    destruct b; cbn [Z.b2z] in Hs.
    + assert (Z : Forall (eq false) v) by (apply sum_bool_zero; lia).
      assert (N : forall k, nth k v false = false).
      { intros k. destruct (Nat.lt_ge_cases k (List.length v)) as [L|L].
        - symmetry. eapply Forall_forall; [exact Z|]. now apply nth_In.
        - now apply nth_overflow. }
      destruct i, j; trivial; cbn in Hi, Hj; rewrite N in *; discriminate.
    + destruct i, j; try discriminate. f_equal. apply IH; trivial.
Qed.

Lemma sum_b2z_le {A : Type} (p : A -> bool) (l : list A) :
  (Np.sum (map (fun x => Z.b2z (p x)) l) <= Z.of_nat (List.length l))%Z
  /\ (Np.sum (map (fun x => Z.b2z (p x)) l) = Z.of_nat (List.length l)
      <-> Forall (fun x => p x = true) l).
Proof.
  induction l as [|x l [IH1 IH2]].
  - split; [reflexivity|]. split; [constructor|reflexivity].
  - cbn [map]. rewrite sum_cons. cbn [List.length].
    destruct (p x) eqn:E; cbn [Z.b2z]; split; try lia; split; intros H.
    + constructor; trivial. apply IH2. lia.
    + inversion H; subst. apply IH2 in H3. lia.
    + lia.
    + inversion H; subst. congruence.
Qed.

Lemma nth_map_seq {A : Type} (f : nat -> A) (n b : nat) (d : A) :
  (b < n)%nat -> nth b (map f (seq 0 n)) d = f b.
Proof.
  intros H. rewrite (nth_indep _ d (f 0%nat)) by now rewrite length_map, length_seq.
  rewrite map_nth, seq_nth by trivial. reflexivity.
Qed.

Lemma nth_map_in_range {A B : Type} (f : A -> B) (l : list A) (o : nat)
    (d : B) (d' : A) :
  (o < List.length l)%nat -> nth o (map f l) d = f (nth o l d').
Proof.
  intros H. rewrite (nth_indep _ d (f d')) by now rewrite length_map.
  apply map_nth.
Qed.


Lemma map_all_false {A : Type} (f : A -> bool) (l : list A) :
  (forall x, In x l -> f x = false) ->
  map f l = repeat false (List.length l).
Proof.
  induction l as [|x l IH]; intros H; [reflexivity|].
  cbn [map List.length repeat]. rewrite (H x (or_introl eq_refl)).
  f_equal. apply IH. intros y Hy. apply H. now right.
Qed.

(* ================================================================= *)
(** ** The rows of the membership matrix *)

Section Rows.

Variable value : float.

(** The row of [value], with the first bin split off. *)
Lemma row_cons (a b : float) (rest : list float) :
  map (bin_hit (a :: b :: rest) value) (seq 0 (S (List.length rest)))
  = (Np.gt value a && Np.le value b)
    :: map (bin_hit (b :: rest) value) (seq 0 (List.length rest)).
Proof.
  cbn [seq map]. f_equal. rewrite <- seq_shift, map_map.
  apply map_ext. intros i. unfold bin_hit. reflexivity.
Qed.

Lemma last_cons (a b : float) (rest : list float) :
  last (b :: rest) a = last rest b.
Proof.
  revert a b. induction rest as [|c rest IH]; intros a b; [reflexivity|].
  change (last (b :: c :: rest) a) with (last (c :: rest) a).
  now rewrite (IH a c), (IH b c).
Qed.

Lemma nondecreasing_cons (a b : float) (rest : list float) :
  nondecreasing (a :: b :: rest) = Np.le a b && nondecreasing (b :: rest).
Proof. reflexivity. Qed.

Lemma nondecreasing_le_last (a : float) (rest : list float) :
  Np.isnan a = false -> nondecreasing (a :: rest) = true ->
  Np.le a (last rest a) = true.
Proof.
  revert a. induction rest as [|b rest IH]; intros a Ha H.
  - now apply FloatOrder.le_refl.
  - rewrite nondecreasing_cons in H. apply andb_prop in H as [Hab H].
    destruct (FloatOrder.le_not_nan _ _ Hab) as [_ Hb].
    apply FloatOrder.le_trans with b; trivial.
    rewrite last_cons. now apply IH.
Qed.

(** With edges in order, the row of [value] has a single hit when [value]
    lies above the first edge and not above the last, and none otherwise. *)
Lemma row_sum (a : float) (rest : list float) :
  nondecreasing (a :: rest) = true ->
  Np.sum_bool (map (bin_hit (a :: rest) value) (seq 0 (List.length rest)))
  = Z.b2z (Np.gt value a && Np.le value (last rest a)).
Proof.
  revert a. induction rest as [|b rest IH]; intros a H.
  - cbn [List.length seq map last]. destruct (Np.le value a) eqn:E.
    + rewrite (FloatOrder.le_not_gt _ _ E). reflexivity.
    + rewrite andb_false_r. reflexivity.
  - cbn [List.length]. rewrite row_cons.
    rewrite sum_bool_cons.
    pose proof H as H'. rewrite nondecreasing_cons in H'.
    apply andb_prop in H' as [Hab Hs].
    rewrite (IH b Hs), last_cons.
    destruct (FloatOrder.le_not_nan _ _ Hab) as [Ha Hb].
    pose proof (nondecreasing_le_last b rest Hb Hs) as Hl.
    destruct (Np.isnan value) eqn:Hv.
    { rewrite !(FloatOrder.gt_nan_value _ _ Hv). reflexivity. }
    destruct (Np.gt value a) eqn:Ga, (Np.le value b) eqn:Lb; cbn [andb Z.b2z].
    + rewrite (FloatOrder.le_not_gt _ _ Lb).
      rewrite (FloatOrder.le_trans _ _ _ Lb Hl). reflexivity.
    + destruct (Np.gt value b) eqn:Gb; [reflexivity|].
      rewrite (FloatOrder.not_gt_le _ _ Hv Hb Gb) in Lb. discriminate.
    + rewrite (FloatOrder.le_not_gt _ _ Lb). reflexivity.
    + pose proof (FloatOrder.not_gt_le _ _ Hv Ha Ga) as La.
      rewrite (FloatOrder.le_trans _ _ _ La Hab) in Lb. discriminate.
Qed.

End Rows.

(* ================================================================= *)
(** ** The membership matrix and its columns *)

Lemma bin_hits_row (values thresholds : list float) (th_idx : list nat)
    (o : nat) :
  (o < List.length values)%nat ->
  nth o (bin_hits values thresholds th_idx) []
  = map (bin_hit thresholds (nth o values nan)) th_idx.
Proof.
  intros H. unfold bin_hits.
  rewrite (nth_indep _ [] (map (bin_hit thresholds nan) th_idx))
    by now rewrite length_map.
  now rewrite (map_nth (fun value => map (bin_hit thresholds value) th_idx)).
Qed.

Lemma column_in_range (values thresholds : list float) (n b : nat) :
  (b < n)%nat ->
  column n (bin_hits values thresholds (seq 0 n)) b
  = Ret (map (fun value => bin_hit thresholds value b) values).
Proof.
  intros H. unfold column. rewrite (proj2 (Nat.ltb_lt b n) H). f_equal.
  unfold bin_hits. rewrite map_map. apply map_ext. intros value.
  now apply nth_map_seq.
Qed.

Lemma counts_per_bin_eq (values : list float) (e0 : float)
    (rest : list float) :
  counts_per_bin values (e0 :: rest)
  = Ret (map (fun b =>
                Np.sum_bool (map (fun value => bin_hit (e0 :: rest) value b)
                                 values))
             (seq 0 (List.length rest))).
Proof.
  unfold counts_per_bin. cbn [mgrid_columns bind].
  apply mapM_ret. intros b Hb. apply in_seq in Hb.
  rewrite length_seq, column_in_range by lia. reflexivity.
Qed.

(** The counts of the bins add up to the number of hits of the rows. *)
Lemma counts_total (values thresholds : list float) (n : nat) :
  Np.sum (map (fun b =>
                 Np.sum_bool (map (fun value => bin_hit thresholds value b)
                                  values))
              (seq 0 n))
  = Np.sum (map (fun value =>
                   Np.sum_bool (map (bin_hit thresholds value) (seq 0 n)))
                values).
Proof.
  rewrite (map_ext _ (fun b => Np.sum (map (fun value =>
             Z.b2z (bin_hit thresholds value b)) values)))
    by (intros b; now rewrite sum_bool_map, map_map).
  rewrite (map_ext (fun value => Np.sum_bool _) (fun value => Np.sum (map
             (fun b => Z.b2z (bin_hit thresholds value b)) (seq 0 n))))
    by (intros value; now rewrite sum_bool_map, map_map).
  symmetry. apply sum_swap.
Qed.

(** An object that is greater than no edge is in no bin. *)
Lemma row_all_false (thresholds : list float) (value : float) (n : nat) :
  (forall b, (b < n)%nat -> Np.gt value (nth b thresholds nan) = false) ->
  map (bin_hit thresholds value) (seq 0 n) = repeat false n.
Proof.
  intros H.
  replace (repeat false n) with (repeat false (List.length (seq 0 n)))
    by now rewrite length_seq.
  apply map_all_false.
  intros b Hb. apply in_seq in Hb. unfold bin_hit. rewrite H by lia.
  reflexivity.
Qed.

(* ================================================================= *)
(** ** The thresholds text and the two ways of splitting it

    A token with a comma in it is not a float, so when the run-time parse
    at [", "] succeeds, every comma of the text starts a [", "] and both
    ways of splitting give as many pieces. *)

Section Commas.

Local Open Scope string_scope.

Lemma has_comma_app (s t : string) :
  has_comma (s ++ t) = has_comma s || has_comma t.
Proof.
  induction s as [|c s IH]; [reflexivity|].
  cbn [append has_comma]. now rewrite IH, orb_assoc.
Qed.

Lemma isspace_not_comma c : Py.isspace c = true -> Ascii.eqb c "," = false.
Proof. destruct (Ascii.eqb_spec c ","); [subst; discriminate|reflexivity]. Qed.

Lemma isdigit_not_comma c : Py.isdigit c = true -> Ascii.eqb c "," = false.
Proof. destruct (Ascii.eqb_spec c ","); [subst; discriminate|reflexivity]. Qed.

Lemma has_comma_lstrip s : has_comma (Py.lstrip s) = has_comma s.
Proof.
  induction s as [|c s IH]; [reflexivity|]. cbn [Py.lstrip].
  destruct (Py.isspace c) eqn:E; [|reflexivity].
  cbn [has_comma]. now rewrite (isspace_not_comma c E).
Qed.

Lemma has_comma_rstrip s : has_comma (Py.rstrip s) = has_comma s.
Proof.
  induction s as [|c s IH]; [reflexivity|]. cbn [Py.rstrip has_comma].
  rewrite <- IH. destruct (Py.rstrip s) as [|c' r].
  - destruct (Py.isspace c) eqn:E; cbn [has_comma].
    + now rewrite (isspace_not_comma c E).
    + reflexivity.
  - reflexivity.
Qed.

Lemma has_comma_strip s : has_comma (Py.strip s) = has_comma s.
Proof. unfold Py.strip. now rewrite has_comma_rstrip, has_comma_lstrip. Qed.

Lemma has_comma_read_digits s acc n :
  has_comma (snd (Py.read_digits acc n s)) = has_comma s.
Proof.
  revert acc n. induction s as [|c s IH]; intros acc n; [reflexivity|].
  cbn [Py.read_digits]. destruct (Py.isdigit c) eqn:E; [|reflexivity].
  rewrite IH. cbn [has_comma]. now rewrite (isdigit_not_comma c E).
Qed.

Lemma has_comma_read_sign s :
  has_comma (snd (Py.read_sign s)) = has_comma s.
Proof.
  destruct s as [|c s]; [reflexivity|]. cbn [Py.read_sign].
  destruct (Ascii.eqb_spec c "-") as [->|_]; [reflexivity|].
  destruct (Ascii.eqb_spec c "+") as [->|_]; reflexivity.
Qed.

Lemma has_comma_lowercase s : has_comma (Py.lowercase s) = has_comma s.
Proof.
  induction s as [|c s IH]; [reflexivity|]. cbn [Py.lowercase has_comma].
  rewrite IH. f_equal.
  destruct (Ascii.eqb_spec c ",") as [->|N]; [reflexivity|].
  apply Ascii.eqb_neq. intros E. apply N. clear N.
  destruct c as [[|] [|] [|] [|] [|] [|] [|] [|]]; vm_compute in E; congruence.
Qed.

Lemma read_decimal_no_comma s v :
  Py.read_decimal s = Some v -> has_comma s = false.
Proof.
  unfold Py.read_decimal.
  pose proof (has_comma_read_digits s 0 0) as H1.
  destruct (Py.read_digits 0 0 s) as [[ip ni] r1]. cbn [snd] in H1.
  rewrite <- H1. clear H1.
  assert (H2 : forall m nf r2,
    match r1 with
    | String c r => if Ascii.eqb c "." then Py.read_digits ip 0 r else (ip, O, r1)
    | EmptyString => (ip, O, r1)
    end = (m, nf, r2) -> has_comma r2 = false -> has_comma r1 = false).
  { intros m nf r2. destruct r1 as [|c r]; [intros [= <- <- <-]; trivial|].
    destruct (Ascii.eqb_spec c ".") as [->|_].
    - intros E. pose proof (has_comma_read_digits r ip 0) as H.
      rewrite E in H. cbn [snd] in H. cbn [has_comma]. now rewrite <- H.
    - intros [= <- <- <-]; trivial. }
  destruct (match r1 with String _ _ => _ | EmptyString => _ end)
    as [[m nf] r2] eqn:E.
  specialize (H2 m nf r2 eq_refl).
  destruct (ni + nf =? 0)%nat; [discriminate|].
  destruct r2 as [|c r3]; [intros _; now apply H2|].
  destruct (Ascii.eqb_spec (Py.lower c) "e") as [Hc|_]; [|discriminate].
  pose proof (has_comma_read_sign r3) as H3.
  destruct (Py.read_sign r3) as [neg r4]. cbn [snd] in H3.
  pose proof (has_comma_read_digits r4 0 0) as H4.
  destruct (Py.read_digits 0 0 r4) as [[e ne] r5]. cbn [snd] in H4.
  destruct ne; [discriminate|]. destruct r5; [|discriminate].
  intros _. apply H2. cbn [has_comma]. rewrite <- H3, <- H4.
  cbn [has_comma]. rewrite orb_false_r.
  destruct (Ascii.eqb_spec c ",") as [->|]; [discriminate|reflexivity].
Qed.

Lemma float_no_comma s x : Py.float s = Ret x -> has_comma s = false.
Proof.
  unfold Py.float. rewrite <- (has_comma_strip s).
  rewrite <- (has_comma_read_sign (Py.strip s)).
  destruct (Py.read_sign (Py.strip s)) as [neg body]. cbn [snd].
  rewrite <- (has_comma_lowercase body).
  destruct (String.eqb_spec (Py.lowercase body) "inf") as [->|_];
    [reflexivity|].
  destruct (String.eqb_spec (Py.lowercase body) "infinity") as [->|_];
    [reflexivity|]. cbn [orb].
  destruct (String.eqb_spec (Py.lowercase body) "nan") as [->|_];
    [reflexivity|].
  rewrite has_comma_lowercase.
  destruct (Py.read_decimal body) as [[m e]|] eqn:E; [|discriminate].
  intros _. now apply read_decimal_no_comma in E.
Qed.

(** The first piece of a split starts with the piece being read. *)
Lemma split_from_head (sep s : string) (skip : nat) (cur : string) :
  exists x rest, Py.split_from sep skip cur s = (cur ++ x) :: rest.
Proof.
  revert skip cur. induction s as [|c s IH]; intros skip cur.
  - exists "", []. cbn. f_equal. induction cur; cbn; congruence.
  - cbn [Py.split_from]. destruct skip as [|k]; [|apply IH].
    destruct (prefix sep (String c s)).
    + exists "", (Py.split_from sep (String.length sep - 1) "" s).
      f_equal. induction cur; cbn; congruence.
    + destruct (IH 0%nat (cur ++ String c "")) as (x & rest & E).
      exists (String c x), rest. rewrite E. f_equal.
      clear. induction cur; cbn; congruence.
Qed.

Lemma prefix_nil (s : string) : prefix "" s = true.
Proof. destruct s; reflexivity. Qed.

Lemma same_piece_strip (cur cur' : string) :
  same_piece cur cur' -> Py.strip cur' = Py.strip cur.
Proof. intros [->| ->]; reflexivity. Qed.

Lemma same_piece_app (cur cur' : string) (c : ascii) :
  same_piece cur cur' ->
  same_piece (cur ++ String c "") (cur' ++ String c "").
Proof. intros [->| ->]; [now left|now right]. Qed.

(** When no piece of the split at [", "] has a comma, the split at [","]
    gives the same pieces up to the white space around them. *)
Lemma split_pieces_agree (s : string) :
  (forall cur cur',
      same_piece cur cur' ->
      Forall (fun piece => has_comma piece = false)
             (Py.split_from ", " 0 cur s) ->
      map Py.strip (Py.split_from "," 0 cur' s)
      = map Py.strip (Py.split_from ", " 0 cur s))
  /\ (prefix " " s = true ->
      Forall (fun piece => has_comma piece = false)
             (Py.split_from ", " 1 "" s) ->
      map Py.strip (Py.split_from "," 0 "" s)
      = map Py.strip (Py.split_from ", " 1 "" s)).
Proof.
  induction s as [|c s [IHA IHB]];
    (split; [intros cur cur' R H|intros P H]).
  - cbn [Py.split_from map]. now rewrite (same_piece_strip cur cur' R).
  - discriminate.
  - cbn [Py.split_from prefix] in *.
    destruct (ascii_dec "," c) as [<-|N].
    + rewrite prefix_nil. destruct (prefix " " s) eqn:P.
      * cbn [String.length Nat.sub] in *. cbn [map].
        rewrite (same_piece_strip cur cur' R). f_equal.
        apply IHB; trivial. now inversion H.
      * exfalso.
        destruct (split_from_head ", " s 0 (cur ++ ",")) as (x & rest & E).
        rewrite E in H. inversion H as [|? ? Hc _]; subst.
        cbn beta in Hc. rewrite !has_comma_app in Hc.
        cbn in Hc. rewrite orb_true_r in Hc. discriminate.
    + apply IHA; trivial. now apply same_piece_app.
  - cbn [Py.split_from prefix] in *.
    destruct (ascii_dec " " c) as [<-|N]; [|discriminate].
    destruct (ascii_dec "," " ") as [?|_]; [discriminate|].
    apply IHA; trivial. now right.
Qed.

(** Whenever the parse of the run, at [", "], succeeds, the parse of the
    validation, at [","], gives the same thresholds. *)
Lemma run_time_parse_agrees (text : string) (l : list float) :
  parse_thresholds text ", " = Ret l -> parse_thresholds text "," = Ret l.
Proof.
  intros H. unfold parse_thresholds in *.
  rewrite (mapM_map Py.float Py.strip) in *. unfold Py.split in *.
  rewrite (proj1 (split_pieces_agree text) "" ""); [exact H|now left|].
  apply Forall_forall. intros x Hx. cbn beta.
  rewrite <- has_comma_strip.
  destruct (mapM_each _ _ _ H (Py.strip x)) as (y & E);
    [now apply in_map|].
  now apply float_no_comma in E.
Qed.

Lemma split_lengths (text : string) (l : list float) :
  parse_thresholds text ", " = Ret l ->
  List.length l = List.length (Py.split text ",").
Proof.
  intros H. apply run_time_parse_agrees in H.
  now apply mapM_length in H.
Qed.

End Commas.

(* ================================================================= *)
(** ** The exceptions of the parts of a run *)

(** [float] raises nothing but [ValueError]. *)
Lemma float_raises_ValueError (s : string) (e : exn) :
  Py.float s = Raise e -> e = ValueError.
Proof.
  unfold Py.float. destruct (Py.read_sign (Py.strip s)) as [neg body].
  destruct (_ || _); [discriminate|].
  destruct (String.eqb _ _); [discriminate|].
  destruct (Py.read_decimal body) as [[m x]|]; [discriminate|].
  congruence.
Qed.

Lemma parse_thresholds_raises_ValueError (text sep : string) (e : exn) :
  parse_thresholds text sep = Raise e -> e = ValueError.
Proof.
  intros H. apply mapM_raise in H as (x & _ & H).
  now apply float_raises_ValueError in H.
Qed.

Lemma thresholds_raises_ValueError (g : group) (w : workspace) (e : exn) :
  thresholds g w = Raise e -> e = ValueError.
Proof.
  unfold thresholds. destruct (bin_choice g); [discriminate|].
  destruct (parse_thresholds (custom_thresholds g) ", ") eqn:E;
    [discriminate|].
  cbn [bind]. intros [= <-]. now apply parse_thresholds_raises_ValueError in E.
Qed.

(** The guarded division never raises. *)
Lemma percentage_spec (num_hits : Z) (n : nat) :
  exists p,
    percentage num_hits (Z.of_nat n) = Ret p
    /\ (n = 0%nat -> p = 0%float)
    /\ (n <> 0%nat ->
        p = (100 * Np.float_of_int num_hits
             / Np.float_of_int (Z.of_nat n))%float).
Proof.
  unfold percentage, truediv. destruct n as [|n].
  - exists 0%float. cbn. repeat split; congruence.
  - destruct (Z.gtb_spec (Z.of_nat (S n)) 0) as [_|?]; [|lia].
    destruct (Z.eqb_spec (Z.of_nat (S n)) 0) as [?|_]; [lia|].
    eexists. split; [reflexivity|]. split; [discriminate|reflexivity].
Qed.

(* ================================================================= *)
(** ** Settings that pass validation *)

(** What [validate_group] has checked when it passes. *)
Lemma validate_group_passes (single_measurements : list group) (me : nat)
    (g : group) :
  validate_group single_measurements me g = Ret tt ->
  (1 <= number_of_bins g)%Z
  /\ Z.of_nat (List.length (bin_feature_names single_measurements me g))
     = number_of_bins g.
Proof.
  unfold validate_group.
  destruct (Z.ltb_spec (number_of_bins g) 1); [discriminate|].
  destruct (Z.eqb_spec
              (Z.of_nat (List.length
                           (bin_feature_names single_measurements me g)))
              (number_of_bins g)); [|discriminate].
  intros _. split; [lia|assumption].
Qed.

Lemma number_of_bins_even (g : group) :
  bin_choice g = BC_EVEN -> (number_of_bins g <= bin_count g + 2)%Z.
Proof.
  intros H. unfold number_of_bins. rewrite H.
  destruct (wants_low_bin g), (wants_high_bin g); lia.
Qed.

Lemma length_arange (n : Z) :
  (-1 <= n)%Z -> Z.of_nat (List.length (Np.arange (n + 1))) = (n + 1)%Z.
Proof. intros H. unfold Np.arange. rewrite length_map, length_seq. lia. Qed.

Lemma catch_bins_length (low_bin high_bin : bool) (edges : list float) :
  Z.of_nat (List.length ((if low_bin then [neg_infinity] else [])
                         ++ edges
                         ++ (if high_bin then [infinity] else [])))
  = ((if high_bin then 1 else 0)
     + ((if low_bin then 1 else 0) + Z.of_nat (List.length edges)))%Z.
Proof.
  rewrite !length_app. destruct low_bin, high_bin; cbn [List.length]; lia.
Qed.

(** Whenever the edges are built, there is one more of them than
    [number_of_bins] declares. *)
Lemma thresholds_length (g : group) (w : workspace) (edges : list float) :
  (bin_choice g = BC_EVEN -> (-1 <= bin_count g)%Z) ->
  thresholds g w = Ret edges ->
  Z.of_nat (List.length edges) = (number_of_bins g + 1)%Z.
Proof.
  intros Hb. unfold thresholds, number_of_bins.
  destruct (bin_choice g) eqn:Hc.
  - cbn [bind]. intros [= <-]. rewrite catch_bins_length, length_map.
    rewrite length_arange by auto.
    destruct (wants_low_bin g), (wants_high_bin g); lia.
  - destruct (parse_thresholds (custom_thresholds g) ", ") as [l|] eqn:E;
      [|discriminate].
    cbn [bind]. intros [= <-]. rewrite catch_bins_length.
    rewrite (split_lengths _ _ E).
    destruct (wants_low_bin g), (wants_high_bin g); lia.
Qed.

(* ================================================================= *)
(** ** What a run records *)

Lemma for_each_Forall {A B : Type} (f : A -> res B) (P : B -> Prop)
    (l : list A) :
  (forall x y, In x l -> f x = Ret y -> P y) -> Forall P (fst (for_each f l)).
Proof.
  induction l as [|x l IH]; intros H; cbn [for_each]; [constructor|].
  destruct (f x) as [y|e] eqn:E; [|constructor].
  specialize (IH (fun x' y' Hx => H x' y' (or_intror Hx))).
  destruct (for_each f l) as [ys stopped]. cbn [fst] in *.
  constructor; [|exact IH]. now apply (H x); [left|].
Qed.

Lemma for_each_stopped {A B : Type} (f : A -> res B) (l : list A) (e : exn) :
  snd (for_each f l) = Some e -> exists x, In x l /\ f x = Raise e.
Proof.
  induction l as [|x l IH]; cbn [for_each]; [discriminate|].
  destruct (f x) as [y|e'] eqn:E.
  - destruct (for_each f l) as [ys stopped]. cbn [snd] in *. intros H.
    destruct (IH H) as (x' & Hx & Ex). exists x'. split; [now right|exact Ex].
  - cbn [snd]. intros [= <-]. exists x. split; [now left|exact E].
Qed.

(** A loop over numbered names whose turns succeed up to the number [c] and
    raise from there on: the first [c] turns are done, and the loop ends in
    the exception when there are more names. *)
Lemma for_each_numbered {A B : Type} (f : nat * A -> res B)
    (h : nat * A -> B) (c : nat) (e : exn) :
  (forall b n, (b < c)%nat -> f (b, n) = Ret (h (b, n))) ->
  (forall b n, (c <= b)%nat -> f (b, n) = Raise e) ->
  forall (names : list A) (start : nat),
    for_each f (combine (seq start (List.length names)) names)
    = (map h (combine (seq start (Nat.min (List.length names) (c - start)))
                      names),
       if (List.length names <=? c - start)%nat then None else Some e).
Proof.
  intros Hok Hraise. induction names as [|n names IH]; intros start.
  - reflexivity.
  - cbn [List.length seq combine for_each].
    destruct (Nat.lt_ge_cases start c) as [L|L].
    + rewrite (Hok _ _ L), IH.
      replace (c - start)%nat with (S (c - S start)) by lia.
      cbn [Nat.min seq combine map Nat.leb]. reflexivity.
    + rewrite (Hraise _ _ L).
      replace (c - start)%nat with 0%nat by lia. reflexivity.
Qed.

Lemma map_fst_combine_seq_le {A : Type} (names : list A) (start k : nat) :
  (k <= List.length names)%nat ->
  map fst (combine (seq start k) names) = seq start k.
Proof.
  revert start k. induction names as [|x names IH]; intros start k H.
  - cbn in H. now replace k with 0%nat by lia.
  - destruct k as [|k]; [reflexivity|]. cbn [seq combine map fst].
    rewrite IH by (cbn in H; lia). reflexivity.
Qed.

Lemma map_snd_combine_seq_le {A : Type} (names : list A) (start k : nat) :
  map snd (combine (seq start k) names) = firstn k names.
Proof.
  revert start k. induction names as [|x names IH]; intros start k.
  - now rewrite combine_nil, firstn_nil.
  - destruct k as [|k]; [reflexivity|]. cbn [seq combine map snd firstn].
    now rewrite IH.
Qed.

(** One turn of the loop over the bins: for a bin of the matrix it records
    the column of the bin, its count and its percentage; beyond the last
    bin, [bin_hits[:, bin_idx]] raises [IndexError]. *)
Lemma record_bin_spec (values edges : list float) (columns bin_idx : nat)
    (feature_name : string) :
  let hits := bin_hits values edges (seq 0 columns) in
  let c := map (fun value => bin_hit edges value bin_idx) values in
  ((bin_idx < columns)%nat ->
   record_bin values hits columns (bin_idx, feature_name)
   = Ret {| object_feature := Py.join2 M_CATEGORY feature_name;
            object_classification := map Z.b2z c;
            num_feature := Py.join3 M_CATEGORY feature_name F_NUM_PER_BIN;
            num_hits := Np.sum_bool c;
            pct_feature := Py.join3 M_CATEGORY feature_name F_PCT_PER_BIN;
            pct := if (Z.of_nat (List.length values) >? 0)%Z
                   then (100 * Np.float_of_int (Np.sum_bool c)
                         / Np.float_of_int (Z.of_nat (List.length values)))%float
                   else 0%float |})
  /\ ((columns <= bin_idx)%nat ->
      record_bin values hits columns (bin_idx, feature_name)
      = Raise IndexError).
Proof.
  intros hits c. unfold record_bin, hits. split; intros L.
  - rewrite column_in_range by exact L. cbn [bind].
    unfold percentage, truediv. fold c.
    destruct (Z.gtb_spec (Z.of_nat (List.length values)) 0) as [P|P];
      [|reflexivity].
    destruct (Z.eqb_spec (Z.of_nat (List.length values)) 0); [lia|].
    reflexivity.
  - unfold column. rewrite (proj2 (Nat.ltb_ge bin_idx columns) L).
    reflexivity.
Qed.

(** What a run does once its edges are built: it records the first bins,
    one for each bin name as long as there are bins; with more names than
    bins it then raises [IndexError]; otherwise it goes on to the image and
    the window, and returns when those are done. *)
Lemma run_recording_spec (single_measurements : list group)
    (show_window : bool) (me : nat) (g : group) (w : workspace)
    (e0 : float) (rest : list float) :
  thresholds g w = Ret (e0 :: rest) ->
  let values := get_current_measurement w (object_name g) (measurement g) in
  let names := bin_feature_names single_measurements me g in
  let th_idx := seq 0 (List.length rest) in
  let hits := bin_hits values (e0 :: rest) th_idx in
  let k := Nat.min (List.length names) (List.length rest) in
  exists written,
    run_single_measurement_recording single_measurements show_window me g w
    = (written,
       if (List.length names <=? List.length rest)%nat
       then shown <- show show_window g w values hits th_idx ;;
            Ret {| recorded := written; shown := shown |}
       else Raise IndexError)
    /\ map object_feature written
       = map (Py.join2 M_CATEGORY) (firstn k names)
    /\ map num_feature written
       = map (fun n => Py.join3 M_CATEGORY n F_NUM_PER_BIN) (firstn k names)
    /\ map pct_feature written
       = map (fun n => Py.join3 M_CATEGORY n F_PCT_PER_BIN) (firstn k names)
    /\ map object_classification written
       = map (fun b => map (fun value => Z.b2z (bin_hit (e0 :: rest) value b))
                           values)
             (seq 0 k)
    /\ map num_hits written
       = map (fun b => Np.sum_bool (map (fun value =>
                                           bin_hit (e0 :: rest) value b)
                                        values))
             (seq 0 k).
Proof.
  intros ET values names th_idx hits k.
  unfold run_single_measurement_recording. rewrite ET.
  cbn [mgrid_columns]. fold values names th_idx hits.
  unfold th_idx at 1. rewrite length_seq.
  set (record := fun bf : nat * string =>
    let c := map (fun value => bin_hit (e0 :: rest) value (fst bf)) values in
    {| object_feature := Py.join2 M_CATEGORY (snd bf);
       object_classification := map Z.b2z c;
       num_feature := Py.join3 M_CATEGORY (snd bf) F_NUM_PER_BIN;
       num_hits := Np.sum_bool c;
       pct_feature := Py.join3 M_CATEGORY (snd bf) F_PCT_PER_BIN;
       pct := if (Z.of_nat (List.length values) >? 0)%Z
              then (100 * Np.float_of_int (Np.sum_bool c)
                    / Np.float_of_int (Z.of_nat (List.length values)))%float
              else 0%float |}).
  rewrite (for_each_numbered _ record (List.length rest) IndexError).
  2:{ intros b n L.
      exact (proj1 (record_bin_spec values (e0 :: rest) _ b n) L). }
  2:{ intros b n L.
      exact (proj2 (record_bin_spec values (e0 :: rest) _ b n) L). }
  rewrite Nat.sub_0_r. fold k.
  exists (map record (combine (seq 0 k) names)). split.
  { destruct (List.length names <=? List.length rest)%nat; reflexivity. }
  assert (Hk : (k <= List.length names)%nat) by (unfold k; lia).
  rewrite !map_map. unfold record.
  cbn [object_feature num_feature pct_feature object_classification num_hits].
  rewrite <- (map_map snd (Py.join2 M_CATEGORY)).
  rewrite <- (map_map snd (fun n => Py.join3 M_CATEGORY n F_NUM_PER_BIN)).
  rewrite <- (map_map snd (fun n => Py.join3 M_CATEGORY n F_PCT_PER_BIN)).
  rewrite <- (map_map fst (fun b => map Z.b2z (map (fun value =>
                 bin_hit (e0 :: rest) value b) values))).
  rewrite <- (map_map fst (fun b => Np.sum_bool (map (fun value =>
                 bin_hit (e0 :: rest) value b) values))).
  rewrite map_snd_combine_seq_le, map_fst_combine_seq_le by exact Hk.
  repeat (split; [reflexivity|]). split; [|reflexivity].
  apply map_ext. intros b. now rewrite map_map.
Qed.

(** The measurements that a run leaves are those of its result. *)
Lemma run_returns_recorded (single_measurements : list group)
    (show_window : bool) (me : nat) (g : group) (w : workspace)
    (out : run_output) :
  run_single_measurement single_measurements show_window me g w = Ret out ->
  recorded out
  = fst (run_single_measurement_recording single_measurements show_window
                                          me g w).
Proof.
  unfold run_single_measurement, run_single_measurement_recording.
  destruct (thresholds g w) as [edges|]; [|discriminate].
  destruct (mgrid_columns edges) as [th_idx|]; [|discriminate].
  destruct (for_each _ _) as [written [e|]]; cbn [fst snd]; [discriminate|].
  destruct (show _ _ _ _ _ _) as [shown|]; [|discriminate].
  cbn [bind]. now intros [= <-].
Qed.

(** Validated settings have as many names as the edges make bins. *)
Lemma validated_names_match_edges (single_measurements : list group)
    (me : nat) (g : group) (w : workspace) (edges : list float) :
  validate_group single_measurements me g = Ret tt ->
  thresholds g w = Ret edges ->
  exists e0 rest,
    edges = e0 :: rest
    /\ rest <> []
    /\ List.length (bin_feature_names single_measurements me g)
       = List.length rest
    /\ Z.of_nat (List.length rest) = number_of_bins g.
Proof.
  intros HV ET. apply validate_group_passes in HV as [H1 HN].
  pose proof (thresholds_length g w edges) as HL.
  specialize (HL (fun Hc => ltac:(pose proof (number_of_bins_even g Hc); lia))
                 ET).
  destruct edges as [|e0 rest]; [cbn in HL; lia|]. cbn [List.length] in HL.
  exists e0, rest. split; [reflexivity|].
  split; [intros ->; cbn in HL; lia|]. lia.
Qed.

(* ================================================================= *)
(** ** The lookups for the image and the window *)

Lemma item_in_range {A : Type} (a : list A) (i : Z) (d : A) :
  (0 <= i < Z.of_nat (List.length a))%Z ->
  Np.item a i = Ret (nth (Z.to_nat i) a d).
Proof.
  intros H. unfold Np.item. cbv zeta.
  destruct (Z.ltb_spec i 0); [lia|].
  rewrite (proj2 (Z.leb_le 0 i)), (proj2 (Z.ltb_lt i _)) by lia. cbn [andb].
  destruct (nth_error a (Z.to_nat i)) eqn:E.
  - now rewrite (nth_error_nth _ _ _ E).
  - apply nth_error_None in E. lia.
Qed.

Lemma item_beyond {A : Type} (a : list A) (i : Z) :
  (Z.of_nat (List.length a) <= i)%Z -> Np.item a i = Raise IndexError.
Proof.
  intros H. unfold Np.item. cbv zeta.
  destruct (Z.ltb_spec i 0); [lia|].
  rewrite (proj2 (Z.ltb_ge i _)) by lia. now rewrite andb_false_r.
Qed.

Lemma item_raises {A : Type} (a : list A) (i : Z) (e : exn) :
  Np.item a i = Raise e -> e = IndexError.
Proof.
  unfold Np.item. cbv zeta.
  destruct (_ && _); [destruct (nth_error _ _)|]; congruence.
Qed.

Lemma take_in_range {A : Type} (a : list A) (indices : list Z) (d : A) :
  Forall (fun i => 0 <= i < Z.of_nat (List.length a))%Z indices ->
  Np.take a indices = Ret (map (fun i => nth (Z.to_nat i) a d) indices).
Proof.
  intros H. unfold Np.take. apply mapM_ret. intros i Hi.
  apply item_in_range. revert i Hi. now apply Forall_forall.
Qed.

Lemma take_raises {A : Type} (a : list A) (indices : list Z) (e : exn) :
  Np.take a indices = Raise e -> e = IndexError.
Proof.
  unfold Np.take. intros H. apply mapM_raise in H as (i & _ & H).
  now apply item_raises in H.
Qed.

Lemma length_get_colors (w : workspace) (count : nat) :
  List.length (get_colors w count) = S count.
Proof. unfold get_colors. cbn [List.length]. now rewrite length_map, length_seq. Qed.

(** Without an image and without a window there is nothing to look up. *)
Lemma show_nothing (show_window : bool) (g : group) (w : workspace)
    (values : list float) (hits : list (list bool)) (th_idx : list nat) :
  wants_images g || show_window = false ->
  show show_window g w values hits th_idx = Ret None.
Proof. unfold show. now intros ->. Qed.

(** The lookups are done when every pixel is labelled with the background
    or an object, and the index of every pixel is that of a colour. *)
Lemma show_returns (show_window : bool) (g : group) (w : workspace)
    (values : list float) (hits : list (list bool)) (th_idx : list nat) :
  let object_color := object_color_of (object_bins_of hits th_idx) values in
  let pixels := segmented w (object_name g) in
  Forall (fun l => 0 <= l < Z.of_nat (List.length object_color))%Z pixels ->
  Forall (fun l => 0 <= nth (Z.to_nat l) object_color 0
                   <= Z.of_nat (List.length th_idx))%Z pixels ->
  exists shown, show show_window g w values hits th_idx = Ret shown.
Proof.
  intros object_color pixels HL HC. unfold show.
  destruct (wants_images g || show_window); [|now eexists].
  fold object_color pixels. rewrite (take_in_range _ _ 0%Z HL). cbn [bind].
  destruct (wants_images g); [|cbn [bind]; now eexists].
  unfold colors_of. rewrite (take_in_range _ _ (0, 0, 0, 0)%float).
  - cbn [bind]. now eexists.
  - rewrite length_get_colors. apply Forall_map.
    eapply Forall_impl; [|exact HC]. cbn beta. lia.
Qed.

(** The lookups raise nothing but [IndexError]. *)
Lemma show_raises_IndexError (show_window : bool) (g : group) (w : workspace)
    (values : list float) (hits : list (list bool)) (th_idx : list nat)
    (e : exn) :
  show show_window g w values hits th_idx = Raise e -> e = IndexError.
Proof.
  unfold show. destruct (wants_images g || show_window); [|discriminate].
  destruct (Np.take _ _) as [labels|e'] eqn:EL; cbn [bind].
  2:{ intros [= <-]. now apply take_raises in EL. }
  destruct (wants_images g); cbn [bind]; [|discriminate].
  unfold colors_of.
  destruct (Np.take _ labels) as [rows|e'] eqn:EC; cbn [bind];
    [discriminate|].
  intros [= <-]. now apply take_raises in EC.
Qed.

(** Thresholds out of order can put an object in two bins, whose positions
    add up beyond the colour table: with the thresholds 9, 0, 5, 0, 5, which
    pass [validate_group], the value 3 is in the second and in the fourth
    of the four bins and has the index 5; the run records the four bins and
    then raises [IndexError]. *)
Lemma overlapping_bins_overrun_colors :
  let g := Sample.custom "9, 0, 5, 0, 5" false false in
  let w := Sample.objects [3%float] in
  validate_group [g] 0 g = Ret tt
  /\ map num_hits (fst (run_single_measurement_recording [g] false 0 g w))
     = [0; 1; 0; 1]%Z
  /\ object_color_of
       (object_bins_of (bin_hits [3%float] [9; 0; 5; 0; 5]%float
                                 [0; 1; 2; 3]%nat)
                       [0; 1; 2; 3]%nat)
       [3%float]
     = [0; 5]%Z
  /\ run_single_measurement [g] false 0 g w = Raise IndexError.
Proof. vm_compute. repeat split. Qed.

Lemma length_object_color_of (object_bins : list Z) (values : list float) :
  List.length object_bins = List.length values ->
  List.length (object_color_of object_bins values) = S (List.length values).
Proof.
  intros H. unfold object_color_of.
  rewrite length_map, length_combine. cbn [List.length].
  rewrite length_map. lia.
Qed.

Lemma length_object_bins_of (values edges : list float) (th_idx : list nat) :
  List.length (object_bins_of (bin_hits values edges th_idx) th_idx)
  = List.length values.
Proof. unfold object_bins_of, bin_hits. now rewrite !length_map. Qed.

(* ================================================================= *)
(** ** C1: the thresholds text is split differently at run time *)

(** C1 fails on the code.  [validate_group] and [number_of_bins] split the
    thresholds text at [","], [run_single_measurement] at [", "]: the text
    "0,1,2" passes validation, where it parses to 0, 1, 2, and then makes
    the run raise [ValueError], as does the default text "0,1".  (A run that
    does not raise has the thresholds of the validation, by
    [run_time_parse_agrees].) *)
Theorem validated_thresholds_fail_at_run_time :
  let g := Sample.custom "0,1,2" false false in
  let d := Sample.custom "0,1" false false in
  let w := Sample.objects [0.5; 1.5; 0; 2]%float in
  (validate_group [g] 0 g = Ret tt
   /\ parse_thresholds (custom_thresholds g) "," = Ret [0; 1; 2]%float
   /\ Py.split (custom_thresholds g) ", " = ["0,1,2"%string]
   /\ thresholds g w = Raise ValueError
   /\ run_single_measurement [g] false 0 g w = Raise ValueError)
  /\ (validate_group [d] 0 d = Ret tt
      /\ run_single_measurement [d] false 0 d w = Raise ValueError).
Proof. vm_compute. repeat split. Qed.

(* ================================================================= *)
(** ** C2: the bin index of an object that is in no bin *)

Lemma object_bins_no_hit (row : list bool) (th_idx : list nat) :
  Forall (eq false) row ->
  Np.sum (map (fun hi : bool * nat => Z.b2z (fst hi) * Z.of_nat (snd hi))%Z
              (combine row th_idx)) = 0%Z.
Proof.
  intros H. revert th_idx. induction H as [|b row <- _ IH]; intros th_idx;
    [reflexivity|].
  destruct th_idx as [|i th_idx]; [reflexivity|].
  cbn [combine map]. rewrite sum_cons, IH. reflexivity.
Qed.

Lemma object_color_nth (object_bins : list Z) (values : list float)
    (o : nat) :
  (o < List.length values)%nat ->
  List.length object_bins = List.length values ->
  nth (S o) (object_color_of object_bins values) 0%Z
  = if Np.isnan (nth o values nan) then 0%Z else nth o object_bins 0%Z.
Proof.
  unfold object_color_of. cbn [combine map nth].
  revert object_bins o.
  induction values as [|v values IH]; intros object_bins o Ho HL;
    [cbn in Ho; lia|].
  destruct object_bins as [|c object_bins]; [discriminate|].
  destruct o as [|o]; [reflexivity|].
  cbn [map combine nth]. apply IH; cbn [List.length] in *; lia.
Qed.

(** X5.  Whatever the edges, an object that is not NaN and is in no bin is
    given the index 1 by the sum of [bin_hits * th_idx] plus 1. *)
Lemma unclassified_object_index (values : list float) (edges : list float)
    (th_idx : list nat) (o : nat) :
  let hits := bin_hits values edges th_idx in
  (o < List.length values)%nat ->
  Np.isnan (nth o values nan) = false ->
  Forall (eq false) (nth o hits []) ->
  nth (S o) (object_color_of (object_bins_of hits th_idx) values) 0%Z = 1%Z.
Proof.
  intros hits Ho Hnan Hrow.
  rewrite object_color_nth; trivial.
  2:{ unfold object_bins_of, hits, bin_hits. now rewrite !length_map. }
  rewrite Hnan. unfold object_bins_of.
  rewrite (nth_map_in_range _ _ _ _ [])
    by (unfold hits, bin_hits; now rewrite length_map).
  now rewrite object_bins_no_hit.
Qed.

Lemma unclassified_object_index_witness :
  nth 1 (object_color_of
           (object_bins_of (bin_hits [11%float] [0; 5; 10]%float [0; 1]%nat)
                           [0; 1]%nat) [11%float]) 0%Z = 1%Z.
Proof.
  apply (unclassified_object_index [11%float] [0; 5; 10]%float [0; 1]%nat 0).
  - cbn. lia.
  - reflexivity.
  - repeat constructor.
Defined.

(** C2 fails on the code.  With the edges 0, 5, 10 the object of value 11
    is in no bin and is not NaN, yet its index is 1, the index of the
    object of value 3, which is in the first bin; only the NaN object is
    given the index 0. *)
Theorem unclassified_object_painted_as_first_bin :
  let g := Sample.even 0 10 2 false false in
  let values := [11; 3; nan]%float in
  thresholds g (Sample.objects values) = Ret [0; 5; 10]%float
  /\ bin_hits values [0; 5; 10]%float [0; 1]%nat
     = [[false; false]; [true; false]; [false; false]]
  /\ map Np.isnan values = [false; false; true]
  /\ exists out,
       run_single_measurement [g] false 0 g (Sample.objects values) = Ret out
       /\ option_map object_color (shown out) = Some [0; 1; 1; 0]%Z.
Proof.
  cbv zeta. split; [reflexivity|]. split; [reflexivity|].
  split; [reflexivity|]. eexists. split; [vm_compute; reflexivity|reflexivity].
Qed.

(* ================================================================= *)
(** ** C3: the bins exclude each other when the edges are in order *)

(** C3, as stated, fails: the thresholds text "0, 5, 1, 6" passes
    [validate_group], its edges reach the classifier out of order, and the
    object of value 3 is in the first and in the third bin. *)
Lemma overlapping_bins_pass_validation :
  let g := Sample.custom "0, 5, 1, 6" false false in
  validate_group [g] 0 g = Ret tt
  /\ thresholds g (Sample.objects [3%float]) = Ret [0; 5; 1; 6]%float
  /\ mgrid_columns [0; 5; 1; 6]%float = Ret [0; 1; 2]%nat
  /\ bin_hits [3%float] [0; 5; 1; 6]%float [0; 1; 2]%nat
     = [[true; false; true]].
Proof. vm_compute. repeat split. Qed.

(** C3 (amended).  When every edge is at most the next one, every row of the
    membership matrix has at most one [True]. *)
Theorem rows_have_at_most_one_hit (values : list float) (e0 : float)
    (rest : list float) :
  nondecreasing (e0 :: rest) = true ->
  let thresholds := e0 :: rest in
  let th_idx := seq 0 (List.length rest) in
  mgrid_columns thresholds = Ret th_idx /\
  Forall (fun row =>
            (Np.sum_bool row <= 1)%Z
            /\ forall b b', nth b row false = true ->
                            nth b' row false = true -> b = b')
         (bin_hits values thresholds th_idx).
Proof.
  intros Hs thresholds th_idx. split; [reflexivity|].
  apply Forall_forall. intros row Hrow.
  apply in_map_iff in Hrow as (value & <- & _).
  assert (L : (Np.sum_bool (map (bin_hit thresholds value) th_idx) <= 1)%Z).
  { unfold thresholds, th_idx. rewrite row_sum by trivial.
    destruct (_ && _); cbn; lia. }
  split; [exact L|]. intros b b'. now apply sum_bool_le_1_unique.
Qed.

Lemma rows_have_at_most_one_hit_witness :
  nondecreasing [0; 5; 10]%float = true
  /\ Forall (fun row => (Np.sum_bool row <= 1)%Z
                        /\ forall b b', nth b row false = true ->
                                        nth b' row false = true -> b = b')
            (bin_hits [5; 11; nan]%float [0; 5; 10]%float [0; 1]%nat).
Proof.
  split; [reflexivity|].
  exact (proj2 (rows_have_at_most_one_hit [5; 11; nan]%float 0%float
                  [5; 10]%float eq_refl)).
Defined.

(* ================================================================= *)
(** ** C4: the counts of the bins against the number of objects *)

(** C4, as stated, fails twice.  With the edges 0, 5, 1, 6 the single object
    of value 3 is counted in two bins, so the counts add up to more than the
    number of objects; and with the edges 0, 5, 10 the single object of
    value 11, which is not NaN, is counted in no bin. *)
Lemma counts_sum_not_tied_to_nan :
  (counts_per_bin [3%float] [0; 5; 1; 6]%float = Ret [1; 0; 1]%Z
   /\ (Np.sum [1; 0; 1] > Z.of_nat (List.length [3%float]))%Z)
  /\ (counts_per_bin [11%float] [0; 5; 10]%float = Ret [0; 0]%Z
      /\ (Np.sum [0; 0] < Z.of_nat (List.length [11%float]))%Z
      /\ map Np.isnan [11%float] = [false]).
Proof. vm_compute. repeat split. Qed.

(** C4 (amended).  When every edge is at most the next one, the counts of
    the bins add up to at most the number of objects, and to exactly that
    number if and only if every value is greater than the first edge and at
    most the last one; in that case no value is NaN. *)
Theorem counts_sum_at_most_objects (values : list float) (e0 : float)
    (rest : list float) :
  nondecreasing (e0 :: rest) = true ->
  let num_values := Z.of_nat (List.length values) in
  exists counts,
    counts_per_bin values (e0 :: rest) = Ret counts
    /\ List.length counts = List.length rest
    /\ (Np.sum counts <= num_values)%Z
    /\ (Np.sum counts = num_values
        <-> Forall (fun value =>
                      Np.gt value e0 && Np.le value (last rest e0) = true)
                   values)
    /\ (Np.sum counts = num_values
        -> Forall (fun value => Np.isnan value = false) values).
Proof.
  intros Hs num_values. eexists. split; [apply counts_per_bin_eq|].
  split; [now rewrite length_map, length_seq|].
  rewrite counts_total.
  rewrite (map_ext _ (fun value =>
             Z.b2z (Np.gt value e0 && Np.le value (last rest e0))))
    by (intros value; now apply row_sum).
  destruct (sum_b2z_le
              (fun value => Np.gt value e0 && Np.le value (last rest e0))
              values) as [Hle Hiff].
  split; [exact Hle|]. split; [exact Hiff|].
  intros H. apply Hiff in H. eapply Forall_impl; [|exact H].
  cbn beta. intros value Hv. apply andb_prop in Hv as [Hg _].
  now apply FloatOrder.gt_not_nan in Hg.
Qed.

Lemma counts_sum_at_most_objects_witness :
  nondecreasing [0; 5; 10]%float = true
  /\ exists counts,
       counts_per_bin [5; 7; nan]%float [0; 5; 10]%float = Ret counts
       /\ (Np.sum counts <= 3)%Z.
Proof.
  split; [reflexivity|].
  destruct (counts_sum_at_most_objects [5; 7; nan]%float 0%float
              [5; 10]%float eq_refl) as (counts & E & _ & L & _).
  exists counts. split; [exact E|exact L].
Defined.

(* ================================================================= *)
(** ** C5: the half-open interval test *)

(** C5.  With [thresholds] the edges and [th_idx] the bin indices, the entry
    of the membership matrix for object [o] and bin [b] is
    [(values[o] > thresholds[b]) & (values[o] <= thresholds[b+1])]; a NaN
    value compares false with every edge on both sides, so its row is all
    [False]; and a value equal to the lowest edge is in no bin. *)
Theorem bin_hits_half_open (values : list float) (e0 : float)
    (rest : list float) :
  let thresholds := e0 :: rest in
  let th_idx := seq 0 (List.length rest) in
  let hits := bin_hits values thresholds th_idx in
  mgrid_columns thresholds = Ret th_idx /\
  (forall o b, (o < List.length values)%nat -> (b < List.length rest)%nat ->
     nth b (nth o hits []) false
     = Np.gt (nth o values nan) (nth b thresholds nan)
       && Np.le (nth o values nan) (nth (b + 1) thresholds nan)) /\
  (forall o, (o < List.length values)%nat ->
     Np.isnan (nth o values nan) = true ->
     (forall e, Np.gt (nth o values nan) e = false
                /\ Np.le (nth o values nan) e = false) /\
     nth o hits [] = repeat false (List.length rest)) /\
  (forall o lowest, (o < List.length values)%nat ->
     In lowest thresholds ->
     (forall e, In e thresholds -> Np.le lowest e = true) ->
     (nth o values nan =? lowest)%float = true ->
     nth o hits [] = repeat false (List.length rest)).
Proof.
  intros thresholds th_idx hits. split; [reflexivity|]. split; [|split].
  - intros o b Ho Hb. unfold hits. rewrite bin_hits_row by trivial.
    unfold th_idx. rewrite nth_map_seq by trivial. reflexivity.
  - intros o Ho Hnan. split.
    + intros e. split.
      * now apply FloatOrder.gt_nan_value.
      * now apply FloatOrder.le_nan_value.
    + unfold hits. rewrite bin_hits_row by trivial. apply row_all_false.
      intros b _. now apply FloatOrder.gt_nan_value.
  - intros o lowest Ho Hin Hlow Heq. unfold hits.
    rewrite bin_hits_row by trivial. apply row_all_false.
    intros b Hb. apply FloatOrder.eq_le_not_gt with lowest; trivial.
    apply Hlow. apply nth_In. unfold thresholds. cbn [List.length]. lia.
Qed.

(** Edges 0, 5, 10 and the values 5, NaN and 0: 5 is in the first bin,
    NaN and 0 (the lowest edge) are in none. *)
Lemma bin_hits_half_open_witness :
  let hits := bin_hits [5; nan; 0]%float [0; 5; 10]%float [0; 1]%nat in
  nth 0 (nth 0 hits []) false = true
  /\ nth 1 hits [] = [false; false]
  /\ nth 2 hits [] = [false; false].
Proof.
  destruct (bin_hits_half_open [5; nan; 0]%float 0%float [5; 10]%float)
    as (_ & Hentry & Hnan & Hlow).
  cbn [List.length seq repeat] in Hentry, Hnan, Hlow.
  split; [|split].
  - rewrite (Hentry 0%nat 0%nat) by (cbn; lia). reflexivity.
  - apply (Hnan 1%nat); [cbn; lia|reflexivity].
  - apply (Hlow 2%nat 0%float); [cbn; lia|now left| |reflexivity].
    intros e [<-|[<-|[<-|[]]]]; reflexivity.
Defined.

(* ================================================================= *)
(** ** C6: the edges and the declared number of bins *)

(** C6.  For evenly spaced bins the engine builds [bin_count + 1] edges,
    [edge[i] = low + i * (high - low) / bin_count] for [i] from 0 to
    [bin_count], puts minus infinity before them when a low bin is wanted
    and plus infinity after them when a high bin is wanted; and the edges
    that are built, for evenly spaced and for custom bins alike, are one
    more than the number of bins that [number_of_bins] declares. *)
Theorem thresholds_match_declared_bins (g : group) (w : workspace) :
  (bin_choice g = BC_EVEN -> (0 <= bin_count g)%Z) ->
  let low :=
    if wants_image_based_low_threshold g
    then get_current_image_measurement w (low_threshold_measurement g)
    else low_threshold g in
  let high :=
    if wants_image_based_high_threshold g
    then get_current_image_measurement w (high_threshold_measurement g)
    else high_threshold g in
  (bin_choice g = BC_EVEN ->
   exists even_edges,
     Z.of_nat (List.length even_edges) = (bin_count g + 1)%Z
     /\ (forall i, (0 <= i <= bin_count g)%Z ->
           nth (Z.to_nat i) even_edges nan
           = (low + Np.float_of_int i * (high - low)
                    / Np.float_of_int (bin_count g))%float)
     /\ thresholds g w
        = Ret ((if wants_low_bin g then [neg_infinity] else [])
               ++ even_edges
               ++ (if wants_high_bin g then [infinity] else []))
     /\ number_of_bins g
        = (bin_count g + (if wants_low_bin g then 1 else 0)
           + (if wants_high_bin g then 1 else 0))%Z)
  /\ (forall edges,
        thresholds g w = Ret edges ->
        Z.of_nat (List.length edges) = (number_of_bins g + 1)%Z).
Proof.
  intros Hb low high. split.
  - intros Hc.
    exists (map (fun i => (Np.float_of_int i * (high - low)
                           / Np.float_of_int (bin_count g) + low)%float)
                (Np.arange (bin_count g + 1))).
    split; [|split; [|split]].
    + rewrite length_map. apply length_arange. specialize (Hb Hc). lia.
    + intros i Hi. unfold Np.arange. rewrite map_map.
      rewrite nth_map_seq by lia. rewrite Z2Nat.id by lia.
      apply FloatOrder.add_comm.
    + unfold thresholds. rewrite Hc. reflexivity.
    + unfold number_of_bins. rewrite Hc.
      destruct (wants_low_bin g), (wants_high_bin g); lia.
  - intros edges. apply thresholds_length. intros Hc. specialize (Hb Hc). lia.
Qed.

(** Two bins between 0 and 10 with both catch-bins: five edges for the four
    declared bins. *)
Lemma thresholds_match_declared_bins_witness :
  let g := Sample.even 0 10 2 true true in
  (0 <= bin_count g)%Z
  /\ thresholds g (Sample.objects [])
     = Ret [neg_infinity; 0; 5; 10; infinity]%float
  /\ number_of_bins g = 4%Z.
Proof.
  intros g. split; [vm_compute; discriminate|].
  destruct (thresholds_match_declared_bins g (Sample.objects [])
              (fun _ => ltac:(vm_compute; discriminate)))
    as [Heven Hlen].
  destruct (Heven eq_refl) as (even_edges & _ & _ & E & N).
  split; [reflexivity|exact N].
Defined.

(* ================================================================= *)
(** ** C7: counts and percentages, with and without objects *)

(** C7.  [run_single_measurement] never raises a division by zero.  What it
    records for a bin, in a run that returns or in one that raises later,
    is the count of the bin's column and, when there are objects, 100 times
    that count over the number of objects, NaN ones included; when there is
    no object, the count and the percentage are 0.  For settings that pass
    [validate_group] and whose edges are built, the loop over the bins ends
    with one record for each declared bin; and with no object, in an image
    whose pixels are all background, the run returns. *)
Theorem percentage_never_divides_by_zero (single_measurements : list group)
    (show_window : bool) (me : nat) (g : group) (w : workspace) :
  let values := get_current_measurement w (object_name g) (measurement g) in
  let num_values := List.length values in
  let run := run_single_measurement single_measurements show_window me g w in
  let written :=
    fst (run_single_measurement_recording single_measurements show_window
                                          me g w) in
  run <> Raise ZeroDivisionError
  /\ Forall (fun b =>
               List.length (object_classification b) = num_values
               /\ num_hits b = Np.sum (object_classification b)
               /\ (num_values = 0%nat ->
                   num_hits b = 0%Z /\ pct b = 0%float)
               /\ (num_values <> 0%nat ->
                   pct b = (100 * Np.float_of_int (num_hits b)
                            / Np.float_of_int (Z.of_nat num_values))%float))
            written
  /\ (forall out, run = Ret out -> recorded out = written)
  /\ (validate_group single_measurements me g = Ret tt ->
      forall edges, thresholds g w = Ret edges ->
        Z.of_nat (List.length written) = number_of_bins g
        /\ (num_values = 0%nat ->
            Forall (eq 0%Z) (segmented w (object_name g)) ->
            exists out, run = Ret out)).
Proof.
  intros values num_values run written.
  split; [|split; [|split]].
  - unfold run, run_single_measurement, run_single_measurement_recording.
    destruct (thresholds g w) as [edges|e] eqn:ET.
    2:{ apply thresholds_raises_ValueError in ET as ->. discriminate. }
    destruct edges as [|e0 rest]; cbn [mgrid_columns]; [discriminate|].
    destruct (for_each _ _) as [r [e|]] eqn:EF; cbn [snd].
    + pose proof (for_each_stopped _ _ e (f_equal snd EF)) as (x & _ & Ex).
      destruct x as [bin_idx feature_name]. rewrite length_seq in Ex.
      destruct (Nat.lt_ge_cases bin_idx (List.length rest)) as [L|L].
      * rewrite (proj1 (record_bin_spec _ _ _ _ _) L) in Ex. discriminate.
      * rewrite (proj2 (record_bin_spec _ _ _ _ _) L) in Ex. congruence.
    + destruct (show _ _ _ _ _ _) as [shown|e] eqn:ES; cbn [bind];
        [discriminate|].
      apply show_raises_IndexError in ES as ->. discriminate.
  - unfold written, run_single_measurement_recording. fold values.
    destruct (thresholds g w) as [edges|e]; [|constructor].
    destruct (mgrid_columns edges) as [th_idx|e]; [|constructor].
    match goal with
    | |- Forall ?P (fst (let (_, _) := for_each ?f ?l in _)) =>
        pose proof (for_each_Forall f P l) as HF;
        destruct (for_each f l) as [r stopped]
    end.
    cbn [fst] in *. apply HF. clear HF.
    intros [bin_idx feature_name] y _. unfold record_bin.
    destruct (column _ _ bin_idx) as [c|] eqn:EC; [|discriminate].
    cbn [bind].
    assert (Lc : List.length c = num_values).
    { unfold column in EC. destruct (_ <? _)%nat; [|discriminate].
      injection EC as <-. unfold bin_hits. now rewrite !length_map. }
    fold num_values.
    destruct (percentage_spec (Np.sum_bool c) num_values)
      as (p & -> & P0 & P1).
    cbn [bind]. intros [= <-].
    cbn [object_classification num_hits pct].
    split; [now rewrite length_map|]. split; [apply sum_bool_map|].
    split; [|exact P1].
    intros H0. split; [|now apply P0].
    rewrite H0 in Lc. destruct c; [reflexivity|discriminate].
  - intros out. apply run_returns_recorded.
  - intros HV edges ET.
    destruct (validated_names_match_edges _ _ _ _ _ HV ET)
      as (e0 & rest & -> & _ & HN & HB).
    destruct (run_recording_spec single_measurements show_window me g w
                e0 rest ET) as (r & ER & _ & _ & _ & _ & EH).
    fold values in ER, EH. rewrite HN, Nat.leb_refl in ER.
    split.
    + unfold written. rewrite ER. cbn [fst].
      apply (f_equal (@List.length Z)) in EH.
      rewrite !length_map, length_seq, HN, Nat.min_id in EH. lia.
    + intros H0 HP. unfold run, run_single_measurement. rewrite ER.
      cbn [snd].
      destruct (show_returns show_window g w values
                  (bin_hits values (e0 :: rest) (seq 0 (List.length rest)))
                  (seq 0 (List.length rest))) as (shown & ->).
      * apply List.length_zero_iff_nil in H0. rewrite H0.
        eapply Forall_impl; [|exact HP]. cbn. lia.
      * apply List.length_zero_iff_nil in H0. rewrite H0.
        eapply Forall_impl; [|exact HP]. intros l <-. cbn. lia.
      * cbn [bind]. now eexists.
Qed.

(** No object, two bins between 0 and 10: the run returns two records, both
    with the count 0 and the percentage 0. *)
Lemma percentage_never_divides_by_zero_witness :
  let g := Sample.even 0 10 2 false false in
  exists out,
    run_single_measurement [g] false 0 g (Sample.objects []) = Ret out
    /\ List.length (recorded out) = 2%nat
    /\ Forall (fun b => num_hits b = 0%Z /\ pct b = 0%float) (recorded out).
Proof.
  intros g.
  destruct (percentage_never_divides_by_zero [g] false 0 g
              (Sample.objects [])) as (_ & Hrec & Hout & Hrun).
  destruct (Hrun eq_refl _ eq_refl) as (L & Hret).
  destruct (Hret eq_refl) as (out & E); [repeat constructor|].
  exists out. rewrite (Hout out E). split; [exact E|].
  split; [apply Nat2Z.inj; exact L|].
  eapply Forall_impl; [|exact Hrec].
  cbn beta. intros b (_ & _ & H0 & _). now apply H0.
Defined.

(* ================================================================= *)
(** ** C8: the number of custom names *)

(** C8, as stated, fails: with the single custom threshold "1" and no
    catch-bin there is no bin at all, and although the two names "a,b" do
    not match that count, the error points at the thresholds setting. *)
Lemma name_count_error_hidden_by_bin_count :
  let g := Sample.named "a,b" (Sample.custom "1" false false) in
  wants_custom_names g = true
  /\ List.length (Py.split (bin_names g) ",") = 2%nat
  /\ number_of_bins g = 0%Z
  /\ validate_group [g] 0 g
     = Raise (ValidationError At_least_one_bin Custom_thresholds).
Proof. vm_compute. repeat split. Qed.

(** C8 (amended).  When custom bin names are requested and there is at
    least one bin, a number of names that differs from the number of bins
    makes validation fail with the error on the bin names setting, and a
    number of names equal to it never gives that error. *)
Theorem name_count_checked (single_measurements : list group) (me : nat)
    (g : group) :
  wants_custom_names g = true ->
  (1 <= number_of_bins g)%Z ->
  let bin_name_count :=
    Z.of_nat (List.length (Py.split (bin_names g) ",")) in
  (bin_name_count <> number_of_bins g ->
   validate_group single_measurements me g
   = Raise (ValidationError
              (Name_count_mismatch bin_name_count (number_of_bins g))
              Bin_names))
  /\ (bin_name_count = number_of_bins g ->
      forall a b s,
        validate_group single_measurements me g
        <> Raise (ValidationError (Name_count_mismatch a b) s)).
Proof.
  intros Hc Hn bin_name_count.
  assert (L : Z.of_nat (List.length
                (bin_feature_names single_measurements me g))
              = bin_name_count).
  { unfold bin_feature_names. rewrite Hc, length_map. reflexivity. }
  unfold validate_group. rewrite L.
  destruct (Z.ltb_spec (number_of_bins g) 1) as [?|_]; [lia|].
  destruct (Z.eqb_spec bin_name_count (number_of_bins g)) as [E|E];
    cbn [negb]; split; intros H; try contradiction; try reflexivity.
  intros a b s.
  destruct (mapM _ (bin_feature_names single_measurements me g))
    as [u|e] eqn:EM; cbn [bind].
  - destruct (bin_choice g); [discriminate|].
    destruct (parse_thresholds (custom_thresholds g) ",") as [l|e] eqn:EP;
      [discriminate|].
    apply parse_thresholds_raises_ValueError in EP as ->. discriminate.
  - apply mapM_raise in EM as (x & _ & EM).
    unfold Cps.validate_alphanumeric_text in EM.
    destruct x as [|c rest]; [|destruct (_ && _)]; congruence.
Qed.

Lemma name_count_checked_witness :
  let g := Sample.named "a,b" (Sample.custom "1,2" false false) in
  wants_custom_names g = true
  /\ (1 <= number_of_bins g)%Z
  /\ validate_group [g] 0 g
     = Raise (ValidationError (Name_count_mismatch 2 1) Bin_names).
Proof.
  intros g. split; [reflexivity|]. split; [vm_compute; discriminate|].
  refine (proj1 (name_count_checked [g] 0 g eq_refl _) _).
  - vm_compute. discriminate.
  - vm_compute. discriminate.
Defined.

(* ================================================================= *)
(** ** C9: the generated feature names *)

Lemma count_other_same_spec (me : nat) (name : string)
    (others : list group) (pos : nat) (other_same : Z) :
  (pos <= me)%nat ->
  count_other_same me name pos others other_same
  = (other_same
     + Z.of_nat (List.length
                   (filter (fun other => String.eqb (measurement other) name)
                           (firstn (me - pos) others))))%Z.
Proof.
  revert pos other_same.
  induction others as [|other rest IH]; intros pos other_same Hpos.
  - rewrite firstn_nil. cbn. lia.
  - cbn [count_other_same]. destruct (Nat.eqb_spec pos me) as [->|Hne].
    + rewrite Nat.sub_diag. cbn. lia.
    + rewrite IH by lia.
      replace (me - pos)%nat with (S (me - S pos)) by lia.
      cbn [firstn filter].
      destruct (String.eqb (measurement other) name); cbn [List.length]; lia.
Qed.

(** C9.  Without custom names, the feature names are
    [{measurement_name}_Bin_{i+1}] for [i] from 0 to the number of bins
    less one, where [measurement_name] is the measurement of the group,
    followed by the decimal number [k] of the earlier groups of
    [self.single_measurements] with the same measurement when [k > 0]. *)
Theorem generated_feature_names (single_measurements : list group)
    (me : nat) (g : group) :
  wants_custom_names g = false ->
  let k :=
    Z.of_nat (List.length
                (earlier_same single_measurements me (measurement g))) in
  let name := measurement_name single_measurements me g in
  name = (if (k =? 0)%Z then measurement g
          else measurement g ++ Py.str k)%string
  /\ bin_feature_names single_measurements me g
     = map (fun i => (name ++ "_Bin_" ++ Py.str (Z.of_nat i + 1))%string)
           (seq 0 (Z.to_nat (number_of_bins g))).
Proof.
  intros Hc k name. split.
  - unfold name, measurement_name.
    rewrite count_other_same_spec by lia. rewrite Nat.sub_0_r.
    fold (earlier_same single_measurements me (measurement g)).
    change (0 + ?x)%Z with x. fold k.
    destruct (Z.eqb_spec k 0) as [->|Hk]; [reflexivity|].
    destruct (Z.gtb_spec k 0); [reflexivity|]. unfold k in *. lia.
  - unfold bin_feature_names. rewrite Hc. unfold Np.arange.
    rewrite map_map. reflexivity.
Qed.

(** Three classifications of the same measurement: the third one has two
    earlier siblings, and its two bins are named after [AreaShape_Area2]. *)
Lemma generated_feature_names_witness :
  let g := Sample.even 0 10 2 false false in
  wants_custom_names g = false
  /\ measurement_name [g; g; g] 2 g = "AreaShape_Area2"%string
  /\ bin_feature_names [g; g; g] 2 g
     = ["AreaShape_Area2_Bin_1"; "AreaShape_Area2_Bin_2"]%string.
Proof.
  intros g. split; [reflexivity|].
  destruct (generated_feature_names [g; g; g] 2 g eq_refl) as [Hname Hbins].
  split; [rewrite Hname|rewrite Hbins]; reflexivity.
Defined.

(* ================================================================= *)
(** ** C10: thresholds out of order pass validation *)

(** C10.  The thresholds "3,2,1" parse as floats, are not in increasing
    order, and pass [validate_group]; so does the same list written
    "3, 2, 1", whose edges 3, 2, 1 then reach the classifier, which bins the
    objects against them. *)
Theorem decreasing_thresholds_pass_validation :
  let g := Sample.custom "3,2,1" false false in
  let g' := Sample.custom "3, 2, 1" false false in
  let w := Sample.objects [2.5%float] in
  (parse_thresholds (custom_thresholds g) "," = Ret [3; 2; 1]%float
   /\ nondecreasing [3; 2; 1]%float = false
   /\ validate_group [g] 0 g = Ret tt)
  /\ (validate_group [g'] 0 g' = Ret tt
      /\ thresholds g' w = Ret [3; 2; 1]%float
      /\ exists out, run_single_measurement [g'] false 0 g' w = Ret out
                     /\ List.length (recorded out) = 2%nat).
Proof.
  cbv zeta. split; [vm_compute; repeat split|].
  split; [reflexivity|]. split; [reflexivity|].
  eexists. split; [vm_compute; reflexivity|reflexivity].
Qed.

(* ================================================================= *)
(** ** The edges of a run and the validated thresholds *)

(** X1.  For custom bins, the edges that a run builds are the thresholds
    that the validation parsed (at [","]), between the infinities of the
    catch-bins that are wanted. *)
Theorem run_edges_are_validated_thresholds (g : group) (w : workspace)
    (edges : list float) :
  bin_choice g = BC_CUSTOM ->
  thresholds g w = Ret edges ->
  exists validated,
    parse_thresholds (custom_thresholds g) "," = Ret validated
    /\ edges = (if wants_low_bin g then [neg_infinity] else [])
               ++ validated
               ++ (if wants_high_bin g then [infinity] else []).
Proof.
  intros Hc. unfold thresholds. rewrite Hc.
  destruct (parse_thresholds (custom_thresholds g) ", ") as [l|] eqn:E;
    [|discriminate].
  cbn [bind]. intros [= <-]. exists l. split; [|reflexivity].
  now apply run_time_parse_agrees.
Qed.

Lemma run_edges_are_validated_thresholds_witness :
  let g := Sample.custom "0, 1.5,  2" true false in
  bin_choice g = BC_CUSTOM
  /\ thresholds g (Sample.objects []) = Ret [neg_infinity; 0; 1.5; 2]%float
  /\ parse_thresholds (custom_thresholds g) "," = Ret [0; 1.5; 2]%float.
Proof.
  intros g. split; [reflexivity|]. split; [reflexivity|].
  destruct (run_edges_are_validated_thresholds g (Sample.objects [])
              [neg_infinity; 0; 1.5; 2]%float eq_refl eq_refl)
    as (validated & E & H).
  rewrite E. f_equal. cbn in H. rewrite app_nil_r in H.
  now injection H as <-.
Defined.

(* ================================================================= *)
(** ** More names than bins, or fewer *)

Lemma in_combine_seq {A : Type} (l : list A) (start i : nat) (d : A) :
  (i < List.length l)%nat ->
  In ((start + i)%nat, nth i l d) (combine (seq start (List.length l)) l).
Proof.
  revert start i. induction l as [|x l IH]; intros start i Hi;
    [cbn in Hi; lia|].
  cbn [List.length seq combine]. destruct i as [|i].
  - left. now rewrite Nat.add_0_r.
  - right. replace (start + S i)%nat with (S start + i)%nat by lia.
    apply IH. cbn [List.length] in Hi. lia.
Qed.




(* ================================================================= *)
(** ** The bin index of the objects, with the edges in order *)

Lemma weighted_sum_single (row : list bool) (start b : nat) :
  (Np.sum_bool row <= 1)%Z ->
  nth b row false = true ->
  Np.sum (map (fun hi : bool * nat => Z.b2z (fst hi) * Z.of_nat (snd hi))%Z
              (combine row (seq start (List.length row))))
  = Z.of_nat (start + b).
Proof.
  revert start b. induction row as [|h row IH]; intros start b Hs Hb.
  - destruct b; discriminate.
  - pose proof (sum_bool_bounds row) as Hr. rewrite sum_bool_cons in Hs.
    cbn [List.length seq combine map fst snd]. rewrite sum_cons.
    destruct h; cbn [Z.b2z] in *.
    + assert (b = 0%nat) as ->.
      { now apply (sum_bool_le_1_unique (true :: row)). }
      rewrite object_bins_no_hit by (apply sum_bool_zero; lia). lia.
    + destruct b as [|b]; [discriminate|].
      rewrite (IH (S start) b) by (trivial; lia). lia.
Qed.

Lemma sum_bool_pos_exists (row : list bool) :
  (1 <= Np.sum_bool row)%Z ->
  exists b, (b < List.length row)%nat /\ nth b row false = true.
Proof.
  induction row as [|h row IH]; [cbn; lia|].
  rewrite sum_bool_cons. destruct h; cbn [Z.b2z]; intros H.
  - exists 0%nat. cbn. split; [lia|reflexivity].
  - destruct IH as (b & Hb & E); [lia|]. exists (S b). cbn. split; [lia|exact E].
Qed.

(** The index computed for the image, with every edge at most the next
    one: 0 for a NaN object, [b + 1] for an object in bin [b], 1 for an
    object in no bin that is not NaN, and never more than the number of
    bins, or than 1 when there is no bin. *)
Lemma object_index_spec (values : list float) (e0 : float)
    (rest : list float) (o : nat) :
  nondecreasing (e0 :: rest) = true ->
  (o < List.length values)%nat ->
  let edges := e0 :: rest in
  let th_idx := seq 0 (List.length rest) in
  let hits := bin_hits values edges th_idx in
  let index :=
    nth (S o) (object_color_of (object_bins_of hits th_idx) values) 0%Z in
  (forall b, (b < List.length rest)%nat ->
             bin_hit edges (nth o values nan) b = true ->
             index = (Z.of_nat b + 1)%Z)
  /\ (Np.isnan (nth o values nan) = true -> index = 0%Z)
  /\ (Np.isnan (nth o values nan) = false ->
      Forall (eq false) (map (bin_hit edges (nth o values nan)) th_idx) ->
      index = 1%Z)
  /\ (0 <= index <= Z.max 1 (Z.of_nat (List.length rest)))%Z.
Proof.
  intros Hs Ho edges th_idx hits index.
  set (value := nth o values nan).
  set (row := map (bin_hit edges value) th_idx).
  assert (Hindex : index
    = if Np.isnan value then 0%Z
      else (Np.sum (map (fun hi : bool * nat =>
                           Z.b2z (fst hi) * Z.of_nat (snd hi))%Z
                        (combine row (seq 0 (List.length row)))) + 1)%Z).
  { unfold index. rewrite object_color_nth; trivial.
    2:{ unfold object_bins_of, hits, bin_hits. now rewrite !length_map. }
    fold value. destruct (Np.isnan value); [reflexivity|].
    unfold object_bins_of.
    rewrite (nth_map_in_range _ _ _ _ [])
      by (unfold hits, bin_hits; now rewrite length_map).
    unfold hits. rewrite bin_hits_row by trivial. fold value. fold row.
    unfold row at 3. rewrite length_map. unfold th_idx at 2.
    now rewrite length_seq. }
  assert (Hrow : (Np.sum_bool row <= 1)%Z).
  { unfold row, edges, th_idx. rewrite row_sum by trivial.
    destruct (_ && _); cbn; lia. }
  assert (Hlen : List.length row = List.length rest)
    by (unfold row, th_idx; now rewrite length_map, length_seq).
  split; [|split; [|split]].
  - intros b Hb Hhit. rewrite Hindex.
    assert (Hg : Np.isnan value = false).
    { unfold bin_hit in Hhit. apply andb_prop in Hhit as [Hg _].
      now apply FloatOrder.gt_not_nan in Hg. }
    rewrite Hg, (weighted_sum_single row 0 b).
    + lia.
    + exact Hrow.
    + unfold row, th_idx. now rewrite nth_map_seq.
  - intros Hnan. rewrite Hindex. fold value in Hnan. now rewrite Hnan.
  - intros Hnan Hno. rewrite Hindex. fold value in Hnan. rewrite Hnan.
    now rewrite object_bins_no_hit.
  - rewrite Hindex. destruct (Np.isnan value); [lia|].
    pose proof (sum_bool_bounds row) as Hb.
    destruct (Z.eq_dec (Np.sum_bool row) 0) as [Z0|Z0].
    + rewrite object_bins_no_hit by now apply sum_bool_zero. lia.
    + destruct (sum_bool_pos_exists row) as (b & Lb & Eb); [lia|].
      rewrite (weighted_sum_single row 0 b); trivial. lia.
Qed.

(** With the edges in order and at least one bin, the index of every
    label, of the background or of an object, is that of a colour. *)
Lemma object_color_in_table (values : list float) (e0 : float)
    (rest : list float) (l : Z) :
  nondecreasing (e0 :: rest) = true ->
  rest <> [] ->
  (0 <= l <= Z.of_nat (List.length values))%Z ->
  let th_idx := seq 0 (List.length rest) in
  let hits := bin_hits values (e0 :: rest) th_idx in
  (0 <= nth (Z.to_nat l) (object_color_of (object_bins_of hits th_idx) values)
            0
   <= Z.of_nat (List.length th_idx))%Z.
Proof.
  intros Hs Hr Hl th_idx hits.
  assert (Hlen : List.length th_idx = List.length rest) by apply length_seq.
  rewrite Hlen. destruct (Z.to_nat l) as [|o] eqn:El.
  - unfold object_color_of. cbn. lia.
  - assert (0 < List.length rest)%nat by (destruct rest; [easy|cbn; lia]).
    destruct (object_index_spec values e0 rest o Hs ltac:(lia))
      as (_ & _ & _ & Hb).
    fold th_idx hits in Hb. lia.
Qed.

(** X4.  With every edge at most the next one, the index computed for the
    image is 0 for a NaN object and [b + 1] for an object in bin [b].  With
    at least one bin, every index lies between 0 and the number of bins,
    and is the index of a row of the colour table of [get_colors].  With a
    single edge, and so no bin, an object that is not NaN has the index 1,
    for which the colour table, of one row, has no row: the lookup of its
    colour raises [IndexError]. *)
Theorem object_index_of_classified (w : workspace) (values : list float)
    (e0 : float) (rest : list float) (o : nat) :
  nondecreasing (e0 :: rest) = true ->
  (o < List.length values)%nat ->
  let edges := e0 :: rest in
  let th_idx := seq 0 (List.length rest) in
  let hits := bin_hits values edges th_idx in
  let index :=
    nth (S o) (object_color_of (object_bins_of hits th_idx) values) 0%Z in
  let colors := get_colors w (List.length th_idx) in
  (forall b, (b < List.length rest)%nat ->
             bin_hit edges (nth o values nan) b = true ->
             index = (Z.of_nat b + 1)%Z)
  /\ (Np.isnan (nth o values nan) = true -> index = 0%Z)
  /\ (rest <> [] ->
      (0 <= index <= Z.of_nat (List.length rest))%Z
      /\ exists color, Np.item colors index = Ret color)
  /\ (rest = [] -> Np.isnan (nth o values nan) = false ->
      index = 1%Z /\ Np.item colors index = Raise IndexError).
Proof.
  intros Hs Ho edges th_idx hits index colors.
  destruct (object_index_spec values e0 rest o Hs Ho)
    as (Hhit & Hnan & Hno & Hbound).
  fold edges th_idx hits index in Hhit, Hnan, Hno, Hbound.
  split; [exact Hhit|]. split; [exact Hnan|]. split.
  - intros Hr.
    assert (0 < List.length rest)%nat by (destruct rest; [easy|cbn; lia]).
    assert (Hi : (0 <= index <= Z.of_nat (List.length rest))%Z) by lia.
    split; [exact Hi|]. eexists.
    apply (item_in_range colors index (0, 0, 0, 0)%float).
    unfold colors, th_idx. rewrite length_get_colors, length_seq. lia.
  - intros -> Hn.
    assert (Hi : index = 1%Z) by (apply Hno; [exact Hn|constructor]).
    split; [exact Hi|]. rewrite Hi. apply item_beyond.
    unfold colors. rewrite length_get_colors. cbn. lia.
Qed.

(** The edges 0, 5, 10 and the values 7, NaN, 2: the first object is in the
    second bin, and its colour is the row 2 of the colour table. *)
Lemma object_index_of_classified_witness :
  let values := [7; nan; 2]%float in
  let w := Sample.objects values in
  let index :=
    nth 1 (object_color_of
             (object_bins_of (bin_hits values [0; 5; 10]%float [0; 1]%nat)
                             [0; 1]%nat) values) 0%Z in
  nondecreasing [0; 5; 10]%float = true
  /\ index = 2%Z
  /\ exists color, Np.item (get_colors w 2) index = Ret color.
Proof.
  intros values w index.
  destruct (object_index_of_classified w values 0%float [5; 10]%float 0
              eq_refl ltac:(cbn; lia)) as (Hhit & _ & Hrow & _).
  split; [reflexivity|]. split.
  - apply (Hhit 1%nat); [cbn; lia|reflexivity].
  - apply Hrow. discriminate.
Defined.

(* ================================================================= *)
(** ** Both catch-bins *)

Lemma gt_neg_infinity (v : float) :
  Np.gt v neg_infinity
  = negb (Np.isnan v) && negb (v =? neg_infinity)%float.
Proof.
  unfold Np.gt, Np.isnan, is_nan. rewrite ltb_spec, !eqb_spec.
  change (Prim2SF neg_infinity) with (S754_infinity true).
  destruct (Prim2SF v) as [[|]|[|]| |[|] m e] eqn:E; try reflexivity;
    rewrite FloatOrder.SFeqb_refl by discriminate; reflexivity.
Qed.

Lemma le_infinity (v : float) : Np.le v infinity = negb (Np.isnan v).
Proof.
  unfold Np.le, Np.isnan, is_nan. rewrite leb_spec, eqb_spec.
  change (Prim2SF infinity) with (S754_infinity false).
  destruct (Prim2SF v) as [[|]|[|]| |[|] m e] eqn:E; try reflexivity;
    rewrite FloatOrder.SFeqb_refl by discriminate; reflexivity.
Qed.

(** X6.  When both catch-bins are wanted and every edge is at most the
    next one, the counts of the bins add up to the number of objects if and
    only if no value is NaN or minus infinity: every other object is in
    exactly one bin. *)
Theorem catch_bins_count_every_object (g : group) (w : workspace)
    (edges values : list float) :
  wants_low_bin g = true ->
  wants_high_bin g = true ->
  thresholds g w = Ret edges ->
  nondecreasing edges = true ->
  exists counts,
    counts_per_bin values edges = Ret counts
    /\ (Np.sum counts = Z.of_nat (List.length values)
        <-> Forall (fun value =>
                      Np.isnan value = false
                      /\ (value =? neg_infinity)%float = false)
                   values).
Proof.
  intros Hl Hh ET Hs. unfold thresholds in ET. rewrite Hl, Hh in ET.
  destruct (match bin_choice g with BC_EVEN => _ | BC_CUSTOM => _ end)
    as [mid|]; [|discriminate].
  cbn [bind app] in ET. injection ET as <-.
  eexists. split; [apply counts_per_bin_eq|].
  rewrite counts_total.
  rewrite (map_ext _ (fun value =>
             Z.b2z (Np.gt value neg_infinity
                    && Np.le value (last (mid ++ [infinity]) neg_infinity))))
    by (intros value; now apply row_sum).
  rewrite last_last.
  rewrite (proj2 (sum_b2z_le
             (fun value => Np.gt value neg_infinity && Np.le value infinity)
             values)).
  split; intros H; (eapply Forall_impl; [|exact H]); cbn beta; intros v.
  - rewrite gt_neg_infinity, le_infinity.
    destruct (Np.isnan v), (v =? neg_infinity)%float; cbn; intuition congruence.
  - intros [N E]. rewrite gt_neg_infinity, le_infinity, N, E. reflexivity.
Qed.

Lemma catch_bins_count_every_object_witness :
  let g := Sample.even 0 10 2 true true in
  exists counts,
    counts_per_bin [-5; 15; 3]%float
                   [neg_infinity; 0; 5; 10; infinity]%float = Ret counts
    /\ Np.sum counts = 3%Z.
Proof.
  intros g.
  destruct (catch_bins_count_every_object g (Sample.objects [])
              [neg_infinity; 0; 5; 10; infinity]%float [-5; 15; 3]%float
              eq_refl eq_refl eq_refl eq_refl) as (counts & E & H).
  exists counts. split; [exact E|]. apply H.
  repeat constructor.
Defined.

(* ================================================================= *)
(** ** The generated names do not collide *)

Section Names.

Local Open Scope string_scope.

Lemma str_inj (a b : Z) : Py.str a = Py.str b -> a = b.
Proof.
  unfold Py.str. intros H.
  assert (N : forall z, NilZero.int_of_string
                          (NilZero.string_of_int (Z.to_int z))
                        = Some (Z.to_int z)).
  { intros z. apply NilZero.isi; destruct z; cbn; try discriminate;
      intros [= E]; now apply DecimalPos.Unsigned.to_uint_nonnil in E. }
  apply (f_equal NilZero.int_of_string) in H. rewrite !N in H.
  injection H as H. apply (f_equal Z.of_int) in H.
  now rewrite !DecimalZ.of_to in H.
Qed.

Lemma str_not_empty (a : Z) : Py.str a <> "".
Proof.
  unfold Py.str. intros H.
  assert (N : NilZero.int_of_string (NilZero.string_of_int (Z.to_int a))
              = Some (Z.to_int a)).
  { apply NilZero.isi; destruct a; cbn; try discriminate;
      intros [= E]; now apply DecimalPos.Unsigned.to_uint_nonnil in E. }
  rewrite H in N. discriminate.
Qed.

Lemma uint_no_underscore (d : Decimal.uint) :
  has_char "_" (NilEmpty.string_of_uint d) = false.
Proof. induction d; cbn; trivial. Qed.

Lemma str_no_underscore (a : Z) : has_char "_" (Py.str a) = false.
Proof.
  unfold Py.str.
  assert (U : forall d, has_char "_" (NilZero.string_of_uint d) = false).
  { intros d. destruct d; try apply uint_no_underscore. reflexivity. }
  destruct (Z.to_int a); cbn [NilZero.string_of_int has_char]; now rewrite ?U.
Qed.

Lemma append_inv_head (s a b : string) : s ++ a = s ++ b -> a = b.
Proof. induction s as [|c s IH]; cbn; [trivial|]. intros [= H]. auto. Qed.

Lemma append_assoc_l (s t u : string) : (s ++ t) ++ u = s ++ (t ++ u).
Proof. induction s as [|c s IH]; cbn; congruence. Qed.

Lemma append_nil_r (s : string) : s ++ "" = s.
Proof. induction s as [|c s IH]; cbn; congruence. Qed.

(** Two texts that agree after their first underscore agree before it. *)
Lemma split_at_underscore (a b x y : string) :
  has_char "_" a = false -> has_char "_" b = false ->
  a ++ String "_" x = b ++ String "_" y -> a = b /\ x = y.
Proof.
  revert b. induction a as [|c a IH]; intros b Ha Hb H.
  - destruct b as [|c' b]; cbn in H.
    + injection H as <-. now split.
    + injection H as <- _. cbn in Hb. discriminate.
  - destruct b as [|c' b]; cbn in H.
    + injection H as -> _. cbn in Ha. discriminate.
    + injection H as <- H. cbn [has_char] in Ha, Hb.
      apply orb_false_elim in Ha as [_ Ha].
      apply orb_false_elim in Hb as [_ Hb].
      destruct (IH b Ha Hb H) as [<- <-]. now split.
Qed.

(** The number that [measurement_name] appends, or nothing. *)
Lemma measurement_name_suffix (single_measurements : list group) (me : nat)
    (g : group) :
  let k := Z.of_nat (List.length
                       (earlier_same single_measurements me (measurement g))) in
  exists suffix,
    measurement_name single_measurements me g = measurement g ++ suffix
    /\ has_char "_" suffix = false
    /\ suffix = (if (k >? 0)%Z then Py.str k else "").
Proof.
  intros k. unfold measurement_name.
  rewrite count_other_same_spec by lia. rewrite Nat.sub_0_r.
  fold (earlier_same single_measurements me (measurement g)).
  change (0 + ?x)%Z with x. fold k.
  destruct (k >? 0)%Z.
  - exists (Py.str k). split; [reflexivity|].
    split; [apply str_no_underscore|reflexivity].
  - exists "". split; [now rewrite append_nil_r|]. now split.
Qed.

Lemma earlier_same_grows (single_measurements : list group) (i j : nat)
    (gi : group) :
  (i < j)%nat ->
  nth_error single_measurements i = Some gi ->
  (List.length (earlier_same single_measurements i (measurement gi))
   < List.length (earlier_same single_measurements j (measurement gi)))%nat.
Proof.
  intros Hij Hi. unfold earlier_same.
  destruct (nth_error_split _ _ Hi) as (l1 & l2 & -> & <-).
  rewrite firstn_app, Nat.sub_diag, firstn_all. cbn [firstn].
  rewrite app_nil_r, firstn_app, firstn_all2 by lia.
  replace (j - List.length l1)%nat with (S (j - S (List.length l1))) by lia.
  cbn [firstn]. rewrite filter_app, length_app. cbn [filter].
  rewrite String.eqb_refl. cbn [List.length]. lia.
Qed.

(** X7.  Without custom names, the feature names of a group are pairwise
    different, so that no bin overwrites the measurements of another. *)
Theorem generated_names_distinct (single_measurements : list group)
    (me : nat) (g : group) :
  wants_custom_names g = false ->
  NoDup (bin_feature_names single_measurements me g).
Proof.
  intros Hc. unfold bin_feature_names. rewrite Hc. unfold Np.arange.
  rewrite map_map. apply NoDup_map_NoDup_ForallPairs; [|apply seq_NoDup].
  intros a b _ _ H. unfold Py.join2 in H.
  apply append_inv_head in H. cbn in H. injection H as H.
  apply str_inj in H. lia.
Qed.

Lemma generated_names_distinct_witness :
  let g := Sample.even 0 10 12 true true in
  wants_custom_names g = false
  /\ NoDup (bin_feature_names [g] 0 g)
  /\ List.length (bin_feature_names [g] 0 g) = 14%nat.
Proof.
  intros g. split; [reflexivity|].
  split; [exact (generated_names_distinct [g] 0 g eq_refl)|reflexivity].
Defined.

(** X8.  Two groups of [self.single_measurements] that classify the same
    measurement get different measurement names, and, when neither has
    custom names, no feature name in common. *)
Theorem sibling_names_distinct (single_measurements : list group)
    (i j : nat) (gi gj : group) :
  (i < j)%nat ->
  nth_error single_measurements i = Some gi ->
  nth_error single_measurements j = Some gj ->
  measurement gi = measurement gj ->
  measurement_name single_measurements i gi
  <> measurement_name single_measurements j gj
  /\ (wants_custom_names gi = false -> wants_custom_names gj = false ->
      forall name,
        In name (bin_feature_names single_measurements i gi) ->
        In name (bin_feature_names single_measurements j gj) -> False).
Proof.
  intros Hij Hi Hj Hm.
  pose proof (earlier_same_grows single_measurements i j gi Hij Hi) as Hk.
  destruct (measurement_name_suffix single_measurements i gi)
    as (si & Ei & Ui & Si).
  destruct (measurement_name_suffix single_measurements j gj)
    as (sj & Ej & Uj & Sj).
  rewrite <- Hm in Sj, Ej.
  assert (Hne : si <> sj).
  { rewrite Si, Sj.
    destruct (Z.gtb_spec (Z.of_nat (List.length
               (earlier_same single_measurements j (measurement gi)))) 0);
      [|lia].
    destruct (Z.gtb_spec (Z.of_nat (List.length
               (earlier_same single_measurements i (measurement gi)))) 0).
    - intros E%str_inj. lia.
    - intros E. symmetry in E. now apply str_not_empty in E. }
  split.
  - rewrite Ei, Ej. intros E%append_inv_head. contradiction.
  - intros Ci Cj name Ni Nj. unfold bin_feature_names in Ni, Nj.
    rewrite Ci in Ni. rewrite Cj in Nj.
    apply in_map_iff in Ni as (a & <- & _).
    apply in_map_iff in Nj as (b & H & _).
    rewrite Ei, Ej in H. unfold Py.join2 in H.
    rewrite !append_assoc_l in H. apply append_inv_head in H.
    apply split_at_underscore in H as [H _]; trivial. now apply Hne.
Qed.

Lemma sibling_names_distinct_witness :
  let g := Sample.even 0 10 2 false false in
  (0 < 1)%nat
  /\ measurement_name [g; g] 0 g <> measurement_name [g; g] 1 g.
Proof.
  intros g. split; [lia|].
  exact (proj1 (sibling_names_distinct [g; g] 0 1 g g ltac:(lia) eq_refl
                  eq_refl eq_refl)).
Defined.

End Names.

(* ================================================================= *)
(** ** What validation accepts and what it raises *)

(** X9.  [validate_group] passes exactly when there is at least one bin, as
    many names as bins, every name is accepted by the host's check and, for
    custom bins, every token of the thresholds text is a float; and when it
    fails it raises a [ValidationError]: the [ValueError] of [float] never
    escapes. *)
Theorem validate_group_decides (single_measurements : list group)
    (me : nat) (g : group) :
  let names := bin_feature_names single_measurements me g in
  (validate_group single_measurements me g = Ret tt
   <-> (1 <= number_of_bins g)%Z
       /\ Z.of_nat (List.length names) = number_of_bins g
       /\ Forall (fun name =>
                    Cps.validate_alphanumeric_text name Bin_names = Ret tt)
                 names
       /\ (bin_choice g = BC_CUSTOM ->
           exists l, parse_thresholds (custom_thresholds g) "," = Ret l))
  /\ (forall e, validate_group single_measurements me g = Raise e ->
                exists m s, e = ValidationError m s).
Proof.
  intros names. unfold validate_group. fold names.
  destruct (Z.ltb_spec (number_of_bins g) 1) as [L|L].
  { split; [split; [discriminate|lia]|]. intros e [= <-]. eauto. }
  destruct (Z.eqb_spec (Z.of_nat (List.length names)) (number_of_bins g))
    as [E|E]; cbn [negb].
  2:{ split; [split; [discriminate|tauto]|]. intros e [= <-]. eauto. }
  destruct (mapM (fun name => Cps.validate_alphanumeric_text name Bin_names)
                 names) as [u|e0] eqn:EM; cbn [bind].
  - assert (F : Forall (fun name =>
                  Cps.validate_alphanumeric_text name Bin_names = Ret tt)
                names).
    { apply Forall_forall. intros name Hn.
      destruct (mapM_each _ _ _ EM name Hn) as ([] & Ey). exact Ey. }
    destruct (bin_choice g) eqn:Hc.
    + split; [|discriminate]. split; [|reflexivity].
      intros _. repeat split; trivial. discriminate.
    + destruct (parse_thresholds (custom_thresholds g) ",") as [l|e1] eqn:EP.
      * split; [|discriminate]. split; [|reflexivity].
        intros _. repeat split; trivial. intros _. now exists l.
      * apply parse_thresholds_raises_ValueError in EP as EV. subst e1.
        split.
        -- split; [discriminate|]. intros (_ & _ & _ & H).
           destruct (H eq_refl) as (l & El). congruence.
        -- intros e [= <-]. eauto.
  - apply mapM_raise in EM as (name & Hn & EM). split.
    + split; [discriminate|]. intros (_ & _ & F & _). exfalso.
      rewrite Forall_forall in F. rewrite (F name Hn) in EM. discriminate.
    + intros e [= <-]. unfold Cps.validate_alphanumeric_text in EM.
      destruct name as [|c rest]; [|destruct (_ && _)];
        try discriminate; injection EM as <-; eauto.
Qed.

(** X10.  Without custom names there are always as many names as bins:
    validation never fails on the number of bin names. *)
Theorem generated_names_never_miscounted (single_measurements : list group)
    (me : nat) (g : group) :
  wants_custom_names g = false ->
  forall a b s,
    validate_group single_measurements me g
    <> Raise (ValidationError (Name_count_mismatch a b) s).
Proof.
  intros Hc a b s.
  assert (HL : (0 <= number_of_bins g)%Z ->
               Z.of_nat (List.length
                           (bin_feature_names single_measurements me g))
               = number_of_bins g).
  { intros H. unfold bin_feature_names. rewrite Hc. unfold Np.arange.
    rewrite !length_map, length_seq. lia. }
  unfold validate_group.
  destruct (Z.ltb_spec (number_of_bins g) 1) as [L|L]; [discriminate|].
  rewrite HL by lia. rewrite Z.eqb_refl. cbn [negb].
  destruct (mapM _ (bin_feature_names single_measurements me g))
    as [u|e] eqn:EM; cbn [bind].
  - destruct (bin_choice g); [discriminate|].
    destruct (parse_thresholds (custom_thresholds g) ",") as [l|e] eqn:EP;
      [discriminate|].
    apply parse_thresholds_raises_ValueError in EP as ->. discriminate.
  - apply mapM_raise in EM as (x & _ & EM).
    unfold Cps.validate_alphanumeric_text in EM.
    destruct x as [|c rest]; [|destruct (_ && _)]; congruence.
Qed.

Lemma generated_names_never_miscounted_witness :
  let g := Sample.custom "a,b,c" false false in
  wants_custom_names g = false
  /\ validate_group [g] 0 g
     <> Raise (ValidationError (Name_count_mismatch 2 2) Bin_names).
Proof.
  intros g. split; [reflexivity|].
  exact (generated_names_never_miscounted [g] 0 g eq_refl 2%Z 2%Z Bin_names).
Defined.

(* ================================================================= *)
(** ** The columns told to the host and the measurements of a run *)

Lemma in_enumerate {A : Type} (l : list A) (i : nat) (x : A) :
  nth_error l i = Some x -> In (i, x) (enumerate l).
Proof.
  intros H. unfold enumerate.
  assert (L : (i < List.length l)%nat) by (apply nth_error_Some; congruence).
  pose proof (in_combine_seq l 0 i x L) as Hin.
  now rewrite (nth_error_nth _ _ _ H) in Hin.
Qed.

Lemma enumerate_in {A : Type} (l : list A) (i : nat) (x : A) :
  In (i, x) (enumerate l) -> In x l.
Proof. unfold enumerate. apply in_combine_r. Qed.

(** The columns that [get_measurement_columns] lists for the group at
    position [me]. *)
Lemma columns_of_group (IMAGE : string) (single_measurements : list group)
    (me : nat) (g : group) (feature_name : string) :
  nth_error single_measurements me = Some g ->
  In feature_name (bin_feature_names single_measurements me g) ->
  let columns := get_measurement_columns IMAGE single_measurements in
  In (IMAGE, Py.join3 M_CATEGORY feature_name F_NUM_PER_BIN, COLTYPE_INTEGER)
     columns
  /\ In (IMAGE, Py.join3 M_CATEGORY feature_name F_PCT_PER_BIN,
         COLTYPE_FLOAT) columns
  /\ In (object_name g, Py.join2 M_CATEGORY feature_name, COLTYPE_INTEGER)
        columns.
Proof.
  intros Hg Hn columns. unfold columns, get_measurement_columns.
  repeat split; apply in_flat_map; exists (me, g);
    (split; [now apply in_enumerate|]); rewrite !in_app_iff.
  - left. apply in_map_iff. now exists feature_name.
  - right. left. apply in_map_iff. now exists feature_name.
  - right. right. apply in_map_iff. now exists feature_name.
Qed.

(** X11.  Every measurement that a run records is one of the columns of
    [get_measurement_columns]: the count of a bin as an integer column of
    the image, its percentage as a float column of the image, and the
    per-object classification as an integer column of the objects. *)
Theorem recorded_features_are_columns (IMAGE : string)
    (single_measurements : list group) (show_window : bool) (me : nat)
    (g : group) (w : workspace) (out : run_output) :
  nth_error single_measurements me = Some g ->
  run_single_measurement single_measurements show_window me g w = Ret out ->
  let columns := get_measurement_columns IMAGE single_measurements in
  Forall (fun r =>
            In (IMAGE, num_feature r, COLTYPE_INTEGER) columns
            /\ In (IMAGE, pct_feature r, COLTYPE_FLOAT) columns
            /\ In (object_name g, object_feature r, COLTYPE_INTEGER) columns)
         (recorded out).
Proof.
  intros Hg E columns. rewrite (run_returns_recorded _ _ _ _ _ _ E).
  unfold run_single_measurement_recording.
  destruct (thresholds g w) as [edges|]; [|constructor].
  destruct (mgrid_columns edges) as [th_idx|]; [|constructor].
  match goal with
  | |- Forall ?P (fst (let (_, _) := for_each ?f ?l in _)) =>
      pose proof (for_each_Forall f P l) as HF;
      destruct (for_each f l) as [r stopped]
  end.
  cbn [fst] in *. apply HF. clear HF.
  intros [bin_idx feature_name] y Hx Ey. apply in_combine_r in Hx.
  unfold record_bin in Ey.
  destruct (column _ _ bin_idx) as [c|]; [|discriminate]. cbn [bind] in Ey.
  destruct (percentage _ _) as [p|]; [|discriminate]. cbn [bind] in Ey.
  injection Ey as <-. cbn [num_feature pct_feature object_feature].
  now apply (columns_of_group IMAGE single_measurements me g feature_name).
Qed.

Lemma recorded_features_are_columns_witness :
  let g := Sample.even 0 10 1 false false in
  In ("Image"%string,
      "Classify_AreaShape_Area_Bin_1_PctObjectsPerBin"%string, COLTYPE_FLOAT)
     (get_measurement_columns "Image" [g]).
Proof.
  intros g.
  destruct (run_single_measurement [g] false 0 g (Sample.objects []))
    as [out|] eqn:E; [|discriminate].
  pose proof (recorded_features_are_columns "Image" [g] false 0 g
                (Sample.objects []) out eq_refl E) as F.
  vm_compute in E. injection E as <-. cbn [recorded] in F.
  inversion F as [|? ? (_ & H & _) _]. exact H.
Defined.

(** The group whose names or image features [get_measurements] returns. *)
Lemma get_measurements_from_source (IMAGE : string)
    (single_measurements : list group) (object_name' f : string)
    (others : list group) (pos : nat) :
  (forall k g, nth_error others k = Some g ->
               nth_error single_measurements (pos + k) = Some g) ->
  In f (get_measurements_from IMAGE single_measurements object_name' pos
          others) ->
  exists me g,
    nth_error single_measurements me = Some g
    /\ ((object_name g = object_name'
         /\ In f (bin_feature_names single_measurements me g))
        \/ (object_name' = IMAGE
            /\ exists n, In n (bin_feature_names single_measurements me g)
                         /\ (f = Py.join2 n F_NUM_PER_BIN
                             \/ f = Py.join2 n F_PCT_PER_BIN))).
Proof.
  revert pos. induction others as [|g rest IH]; intros pos Hpos Hf;
    [destruct Hf|].
  cbn [get_measurements_from] in Hf.
  assert (Hg : nth_error single_measurements pos = Some g)
    by (rewrite <- (Nat.add_0_r pos); now apply Hpos).
  destruct (String.eqb_spec (object_name g) object_name') as [Eo|_].
  - exists pos, g. split; [exact Hg|]. left. now split.
  - destruct (String.eqb_spec object_name' IMAGE) as [Ei|_].
    + exists pos, g. split; [exact Hg|]. right. split; [exact Ei|].
      cbn [flat_map] in Hf. rewrite app_nil_r, in_app_iff in Hf.
      destruct Hf as [Hf|Hf]; apply in_map_iff in Hf as (n & <- & Hn);
        exists n; auto.
    + apply (IH (S pos)); trivial. intros k g' Hk.
      replace (S pos + k)%nat with (pos + S k)%nat by lia. now apply Hpos.
Qed.

(** X12.  Every measurement that [get_measurements] lists for an object
    name is a column of [get_measurement_columns] for that name; and for
    the image it lists the features of the first group only, whatever the
    groups after it. *)
Theorem get_measurements_are_columns (IMAGE : string)
    (single_measurements : list group) :
  (forall object_name' f,
      In f (get_measurements IMAGE single_measurements object_name'
              M_CATEGORY) ->
      exists t,
        In (object_name', Py.join2 M_CATEGORY f, t)
           (get_measurement_columns IMAGE single_measurements))
  /\ (forall g rest,
        single_measurements = g :: rest ->
        object_name g <> IMAGE ->
        let names := bin_feature_names single_measurements 0 g in
        get_measurements IMAGE single_measurements IMAGE M_CATEGORY
        = map (fun n => Py.join2 n F_NUM_PER_BIN) names
          ++ map (fun n => Py.join2 n F_PCT_PER_BIN) names).
Proof.
  split.
  - intros object_name' f Hf. unfold get_measurements in Hf.
    rewrite String.eqb_refl in Hf. cbn [negb] in Hf.
    apply (get_measurements_from_source IMAGE single_measurements) in Hf
      as (me & g & Hg & [[Eo Hn]|[Ei (n & Hn & [-> | ->])]]);
      [| |trivial..].
    + exists COLTYPE_INTEGER. rewrite <- Eo.
      now apply (columns_of_group IMAGE single_measurements me g f).
    + exists COLTYPE_INTEGER. rewrite Ei.
      now apply (columns_of_group IMAGE single_measurements me g n).
    + exists COLTYPE_FLOAT. rewrite Ei.
      now apply (columns_of_group IMAGE single_measurements me g n).
  - intros g rest -> Hne names. unfold get_measurements.
    rewrite String.eqb_refl. cbn [negb get_measurements_from].
    destruct (String.eqb_spec (object_name g) IMAGE) as [?|_];
      [contradiction|].
    rewrite String.eqb_refl. cbn [flat_map]. now rewrite app_nil_r.
Qed.

Lemma get_measurements_are_columns_witness :
  let g := Sample.even 0 10 1 false false in
  let g' := Sample.custom "0, 1" false false in
  get_measurements "Image" [g; g'] "Image" M_CATEGORY
  = ["AreaShape_Area_Bin_1_NumObjectsPerBin";
     "AreaShape_Area_Bin_1_PctObjectsPerBin"]%string
  /\ List.length (get_measurement_columns "Image" [g; g']) = 6%nat.
Proof.
  intros g g'. split; [|reflexivity].
  rewrite (proj2 (get_measurements_are_columns "Image" [g; g']) g [g']
             eq_refl).
  - reflexivity.
  - discriminate.
Defined.

(** X13.  An object name for which [get_measurement_columns] has a column
    has the category [Classify] in [get_categories]. *)
Theorem columns_have_category (IMAGE : string)
    (single_measurements : list group) (object_name' f : string)
    (t : coltype) :
  In (object_name', f, t) (get_measurement_columns IMAGE single_measurements)
  -> get_categories IMAGE single_measurements object_name' = [M_CATEGORY].
Proof.
  unfold get_measurement_columns, get_categories. intros H.
  apply in_flat_map in H as ([me g] & Hg & H). apply enumerate_in in Hg.
  rewrite !in_app_iff in H.
  destruct H as [H|[H|H]]; apply in_map_iff in H as (n & [= <- _ _] & _).
  - now rewrite String.eqb_refl.
  - now rewrite String.eqb_refl.
  - replace (existsb _ _) with true; [now rewrite orb_true_r|].
    symmetry. apply existsb_exists. exists (object_name g).
    split; [now apply in_map|apply String.eqb_refl].
Qed.

Lemma columns_have_category_witness :
  let g := Sample.even 0 10 1 false false in
  get_categories "Image" [g] "Nuclei" = ["Classify"%string].
Proof.
  intros g.
  apply (columns_have_category "Image" [g] "Nuclei"
           "Classify_AreaShape_Area_Bin_1" COLTYPE_INTEGER).
  vm_compute. auto.
Defined.

(* ================================================================= *)
(** ** From validation to the run *)

(** X2.  For settings that pass [validate_group] and whose edges are built,
    the loop over the bins ends, having recorded, bin after bin, the
    columns of the membership matrix as integers and, as counts, the
    results of [counts_per_bin].  The run can then raise nothing but
    [IndexError], in the lookups for the image and the window; and it
    returns what it has recorded when every edge is at most the next one
    and every pixel is labelled with the background or with an object. *)
Theorem validated_run_records_matrix (single_measurements : list group)
    (show_window : bool) (me : nat) (g : group) (w : workspace)
    (edges : list float) :
  let values := get_current_measurement w (object_name g) (measurement g) in
  let run := run_single_measurement single_measurements show_window me g w in
  let written :=
    fst (run_single_measurement_recording single_measurements show_window
                                          me g w) in
  validate_group single_measurements me g = Ret tt ->
  thresholds g w = Ret edges ->
  exists th_idx,
    mgrid_columns edges = Ret th_idx
    /\ Z.of_nat (List.length th_idx) = number_of_bins g
    /\ map object_classification written
       = map (fun b => map (fun value => Z.b2z (bin_hit edges value b)) values)
             th_idx
    /\ counts_per_bin values edges = Ret (map num_hits written)
    /\ (forall e, run = Raise e -> e = IndexError)
    /\ (nondecreasing edges = true ->
        Forall (fun l => 0 <= l <= Z.of_nat (List.length values))%Z
               (segmented w (object_name g)) ->
        exists out, run = Ret out /\ recorded out = written).
Proof.
  intros values run written HV ET.
  destruct (validated_names_match_edges _ _ _ _ _ HV ET)
    as (e0 & rest & -> & Hr & HN & HB).
  destruct (run_recording_spec single_measurements show_window me g w
              e0 rest ET) as (r & ER & _ & _ & _ & EC & EH).
  fold values in ER, EC, EH. rewrite HN, Nat.leb_refl in ER.
  rewrite HN, Nat.min_id in EC, EH.
  exists (seq 0 (List.length rest)).
  unfold written, run, run_single_measurement. rewrite ER. cbn [fst snd].
  split; [reflexivity|]. split; [now rewrite length_seq|].
  split; [exact EC|]. split; [now rewrite counts_per_bin_eq, EH|]. split.
  - intros e. destruct (show _ _ _ _ _ _) as [shown|e'] eqn:ES; cbn [bind];
      [discriminate|].
    intros [= <-]. now apply show_raises_IndexError in ES.
  - intros Hs HP.
    destruct (show_returns show_window g w values
                (bin_hits values (e0 :: rest) (seq 0 (List.length rest)))
                (seq 0 (List.length rest))) as (shown & ->).
    + rewrite length_object_color_of by apply length_object_bins_of.
      eapply Forall_impl; [|exact HP]. cbn beta. lia.
    + eapply Forall_impl; [|exact HP]. cbn beta. intros l Hl.
      now apply object_color_in_table.
    + cbn [bind]. now eexists.
Qed.

(** Two bins between 0 and 10 and the values 3, 7, 8: the run returns, with
    the counts 1 and 2. *)
Lemma validated_run_records_matrix_witness :
  let g := Sample.even 0 10 2 false false in
  exists out,
    run_single_measurement [g] false 0 g (Sample.objects [3; 7; 8]%float)
    = Ret out
    /\ map num_hits (recorded out) = [1; 2]%Z.
Proof.
  intros g.
  destruct (validated_run_records_matrix [g] false 0 g
              (Sample.objects [3; 7; 8]%float) [0; 5; 10]%float
              eq_refl eq_refl) as (th_idx & _ & _ & _ & _ & _ & R).
  destruct (R eq_refl) as (out & E & W).
  { repeat constructor; cbn; lia. }
  exists out. split; [exact E|]. rewrite W. reflexivity.
Defined.

Lemma validate_module_each (single_measurements : list group) (me : nat)
    (g : group) :
  validate_module single_measurements = Ret tt ->
  nth_error single_measurements me = Some g ->
  validate_group single_measurements me g = Ret tt.
Proof.
  unfold validate_module. intros H Hg.
  destruct (mapM _ (enumerate single_measurements)) as [r|] eqn:EM;
    [|discriminate].
  destruct (mapM_each _ _ _ EM (me, g) (in_enumerate _ _ _ Hg)) as ([] & E).
  exact E.
Qed.

(** X14.  When [validate_module] passes, every group of the module has
    passed [validate_group], and in the run of every evenly spaced group,
    whatever the measurements of the image cycle are, the loop over the
    bins ends with one record for each of its bins.  The run then returns
    them when neither an image nor the window is wanted, and otherwise can
    raise nothing but the [IndexError] of a lookup for the image or the
    window. *)
Theorem validated_module_runs (single_measurements : list group)
    (show_window : bool) (w : workspace) (me : nat) (g : group) :
  validate_module single_measurements = Ret tt ->
  nth_error single_measurements me = Some g ->
  let run := run_single_measurement single_measurements show_window me g w in
  let written :=
    fst (run_single_measurement_recording single_measurements show_window
                                          me g w) in
  validate_group single_measurements me g = Ret tt
  /\ (bin_choice g = BC_EVEN ->
      Z.of_nat (List.length written) = number_of_bins g
      /\ (forall e, run = Raise e -> e = IndexError)
      /\ (wants_images g || show_window = false ->
          exists out, run = Ret out /\ recorded out = written)).
Proof.
  intros HM Hg run written.
  pose proof (validate_module_each single_measurements me g HM Hg) as HV.
  split; [exact HV|]. intros Hc.
  destruct (thresholds g w) as [edges|] eqn:ET.
  2:{ unfold thresholds in ET. rewrite Hc in ET. discriminate. }
  destruct (validated_names_match_edges _ _ _ _ _ HV ET)
    as (e0 & rest & -> & _ & HN & HB).
  destruct (run_recording_spec single_measurements show_window me g w
              e0 rest ET) as (r & ER & _ & _ & _ & _ & EH).
  rewrite HN, Nat.leb_refl in ER. rewrite HN, Nat.min_id in EH.
  unfold written, run, run_single_measurement. rewrite ER. cbn [fst snd].
  split; [|split].
  - apply (f_equal (@List.length Z)) in EH.
    rewrite !length_map, length_seq in EH. lia.
  - intros e. destruct (show _ _ _ _ _ _) as [shown|e'] eqn:ES; cbn [bind];
      [discriminate|].
    intros [= <-]. now apply show_raises_IndexError in ES.
  - intros HW. rewrite show_nothing by exact HW. cbn [bind]. now eexists.
Qed.

Lemma validated_module_runs_witness :
  let g := Sample.without_image (Sample.even 0 10 2 true false) in
  let g' := Sample.custom "0,1" false false in
  validate_module [g; g'] = Ret tt
  /\ exists out,
       run_single_measurement [g; g'] false 0 g (Sample.objects [nan]) = Ret out
       /\ Z.of_nat (List.length (recorded out)) = 3%Z.
Proof.
  intros g g'. split; [reflexivity|].
  destruct (validated_module_runs [g; g'] false (Sample.objects [nan])
              0 g eq_refl eq_refl) as (_ & H).
  destruct (H eq_refl) as (L & _ & R).
  destruct (R eq_refl) as (out & E & W).
  exists out. split; [exact E|]. rewrite W. exact L.
Defined.

(* ================================================================= *)
(** ** The number of groups after [prepare_settings] *)

Lemma add_single_measurements_spec (new_group : group) (n : nat)
    (single_measurements : list group) :
  add_single_measurements new_group n single_measurements
  = single_measurements ++ repeat new_group n.
Proof.
  revert single_measurements. induction n as [|n IH]; intros sm.
  - cbn. now rewrite app_nil_r.
  - cbn [add_single_measurements repeat]. rewrite IH, <- app_assoc.
    reflexivity.
Qed.

(** X15.  [prepare_settings] with a count that is not negative leaves
    exactly that many groups: the first groups that were there, in their
    order, followed by as many new groups as are missing.  With a negative
    count it drops that many groups from the end. *)
Theorem prepare_settings_spec (new_group : group)
    (single_measurement_count : Z) (single_measurements : list group) :
  let n := List.length single_measurements in
  ((0 <= single_measurement_count)%Z ->
   prepare_settings new_group single_measurement_count single_measurements
   = firstn (Z.to_nat single_measurement_count) single_measurements
     ++ repeat new_group (Z.to_nat single_measurement_count - n)
   /\ Z.of_nat (List.length
                  (prepare_settings new_group single_measurement_count
                                    single_measurements))
      = single_measurement_count)
  /\ ((single_measurement_count < 0)%Z ->
      prepare_settings new_group single_measurement_count single_measurements
      = firstn (n - Z.to_nat (- single_measurement_count))
               single_measurements).
Proof.
  intros n. subst n. unfold prepare_settings, del_from.
  rewrite add_single_measurements_spec.
  set (n := List.length single_measurements).
  split; intros Hc.
  - destruct (Z.ltb_spec single_measurement_count (Z.of_nat n)) as [L|L].
    + destruct (Z.ltb_spec single_measurement_count 0) as [?|_]; [lia|].
      rewrite length_firstn. fold n.
      replace (Z.to_nat (single_measurement_count
                 - Z.of_nat (Nat.min (Z.to_nat single_measurement_count) n)))
        with 0%nat by lia.
      replace (Z.to_nat single_measurement_count - n)%nat with 0%nat by lia.
      split; [reflexivity|].
      rewrite length_app, length_firstn. fold n. cbn [repeat List.length].
      lia.
    + rewrite (firstn_all2 (n := Z.to_nat single_measurement_count))
        by (fold n; lia).
      fold n.
      replace (Z.to_nat (single_measurement_count - Z.of_nat n))
        with (Z.to_nat single_measurement_count - n)%nat by lia.
      split; [reflexivity|].
      rewrite length_app, repeat_length. fold n. lia.
  - destruct (Z.ltb_spec single_measurement_count (Z.of_nat n)) as [_|?];
      [|lia].
    destruct (Z.ltb_spec single_measurement_count 0) as [_|?]; [|lia].
    rewrite length_firstn. fold n.
    replace (Z.to_nat (single_measurement_count - _)) with 0%nat by lia.
    cbn [repeat]. rewrite app_nil_r. f_equal. lia.
Qed.

Lemma prepare_settings_spec_witness :
  let g := Sample.even 0 10 2 false false in
  let d := Sample.custom "0,1" false false in
  prepare_settings d 3 [g] = [g; d; d]
  /\ prepare_settings d 1 [g; g; g] = [g]
  /\ prepare_settings d (-1) [g; d; g] = [g; d].
Proof.
  intros g d.
  destruct (prepare_settings_spec d 3 [g]) as [H3 _].
  destruct (prepare_settings_spec d 1 [g; g; g]) as [H1 _].
  destruct (prepare_settings_spec d (-1) [g; d; g]) as [_ Hn].
  rewrite (proj1 (H3 ltac:(lia))), (proj1 (H1 ltac:(lia))), (Hn ltac:(lia)).
  repeat split.
Defined.
